(** * etimerfd: an Erlang port driver for the Linux timerfd facility

    A shallow embedding of [c_src/etimerfd.c].  The driver keeps one
    [etimerfd] record per port; the emulator calls [control] for every
    [port_control/3] request and [ready_input] when a selected event is
    readable.  Everything the driver does to the outside world (system
    calls, [driver_select], [driver_output], ...) is recorded as a list of
    [effect]s, and everything the outside world answers (return codes of
    system calls, the bytes read) comes in through an [answers] record. *)

From stdpp Require Import base numbers strings list gmap.

Local Open Scope Z_scope.

(** ** Constants of the headers the driver includes *)

Definition ATOM_OK : string := "ok".
Definition ATOM_ERROR : string := "error".
Definition ATOM_NOMEMORY : string := "no_memory".

(** [enum { CREATE, SETTIME, GETTIME, ACK }] *)
Definition CREATE : Z := 0.
Definition SETTIME : Z := 1.
Definition GETTIME : Z := 2.
Definition ACK : Z := 3.

(** <linux/time.h>, <sys/timerfd.h> *)
Definition CLOCK_REALTIME : Z := 0.
Definition CLOCK_MONOTONIC : Z := 1.
Definition TFD_TIMER_ABSTIME : Z := 1.
Definition TFD_NONBLOCK : Z := 2048.     (* O_NONBLOCK, 04000 *)
Definition TFD_CLOEXEC : Z := 524288.    (* O_CLOEXEC, 02000000 *)

(** <erl_driver.h> *)
Definition ERL_DRV_READ : Z := 1.
Definition ERL_DRV_WRITE : Z := 2.
Definition ERL_DRV_USE : Z := 4.
Definition PORT_CONTROL_FLAG_BINARY : Z := 1.

(** ** Data *)

Definition ErlDrvPort := Z.
Definition ErlDrvEvent := Z.

(** [typedef struct { ErlDrvPort port; int fd; bool ack_pending; } etimerfd;] *)
Record etimerfd := mk_etimerfd {
  port : ErlDrvPort;
  fd : Z;
  ack_pending : bool
}.

(** [#define EVENT2FD(x) (long)(x)] and [#define FD2EVENT(x) (ErlDrvEvent)(long)(x)] *)
Definition EVENT2FD (x : ErlDrvEvent) : Z := x.
Definition FD2EVENT (x : Z) : ErlDrvEvent := x.

Record timespec := mk_timespec { tv_sec : Z; tv_nsec : Z }.
Record itimerspec := mk_itimerspec { it_interval : timespec; it_value : timespec }.

(** Erlang terms as erl_interface's [ETERM] presents them to the driver. *)
#[warnings="-register-all"]
Inductive ETERM :=
| ERL_INTEGER (i : Z)
| ERL_ATOM (a : string)
| ERL_STRING (s : string)
| ERL_TUPLE (elems : list ETERM)
| ERL_LIST (elems : list ETERM).

(** What has been appended to an [ei_x_buff] after its version byte, one
    item per [ei_x_encode_*] call. *)
Inductive ei_item :=
| EI_TUPLE_HEADER (arity : Z)
| EI_ATOM (a : string)
| EI_STRING (s : string)
| EI_TERM (t : ETERM).

Definition ei_x_buff := list ei_item.

(** The request buffer of [control] once [ei_x_decode_version] has looked at
    it: the term that follows the version byte, [None] when the bytes hold
    no such term. *)
Definition in_x_buff := option ETERM.

(** The two values the command functions return as [ErlDrvSSizeT], and the
    [0] that [control] returns when it cannot allocate the reply. *)
Inductive ErlDrvSSizeT :=
| RET_NEG1      (* return -1;  "Let it crash" *)
| RET_ZERO      (* return 0 *)
| RET_INDEX.    (* return out_x_buff->index *)

(** What the driver does to the emulator and to the kernel. *)
Inductive effect :=
| driver_select (p : ErlDrvPort) (event : ErlDrvEvent) (mode : Z) (on : Z)
| driver_output (p : ErlDrvPort) (x : ei_x_buff)
| driver_failure_atom (p : ErlDrvPort) (a : string)
| set_port_control_flags (p : ErlDrvPort) (flags : Z)
| driver_free
| sys_timerfd_create (clockid : Z) (flags : Z)
| sys_timerfd_settime (d : Z) (flags : Z) (new_value : itimerspec)
| sys_timerfd_gettime (d : Z)
| sys_read (d : Z) (nbytes : Z)
| sys_close (d : Z).

(** What the emulator and the kernel answer during one callback. *)
Record answers := mk_answers {
  ans_x_new : Z;                        (* ei_x_new_with_version(&out_x_buff) *)
  ans_timerfd_create : Z;               (* timerfd_create(...) *)
  ans_timerfd_settime : Z * itimerspec; (* return code, *old_value *)
  ans_timerfd_gettime : Z * itimerspec; (* return code, *curr_value *)
  ans_read : Z * Z                      (* return code, the 8 bytes as uint64_t *)
}.

(** ** The driver monad: the [etimerfd] record, the effects so far, and
    [None] where C leaves the behaviour undefined *)

Record st := mk_st { hdl : etimerfd; log : list effect }.

Definition M (A : Type) : Type := st -> option (A * st).

Definition ret {A} (a : A) : M A := fun s => Some (a, s).

Definition bind {A B} (m : M A) (f : A -> M B) : M B :=
  fun s => match m s with
           | Some (a, s') => f a s'
           | None => None
           end.

Notation "x <- c1 ;; c2" := (bind c1 (fun x => c2))
  (at level 100, c1 at next level, right associativity).
Notation "c1 ;; c2" := (bind c1 (fun _ => c2))
  (at level 100, right associativity).

Definition get_data : M etimerfd := fun s => Some (hdl s, s).
Definition set_fd (v : Z) : M unit :=
  fun s => Some (tt, mk_st (mk_etimerfd (port (hdl s)) v (ack_pending (hdl s))) (log s)).
Definition set_ack_pending (b : bool) : M unit :=
  fun s => Some (tt, mk_st (mk_etimerfd (port (hdl s)) (fd (hdl s)) b) (log s)).
Definition emit (e : effect) : M unit :=
  fun s => Some (tt, mk_st (hdl s) (log s ++ [e])).
Definition undefined {A} : M A := fun _ => None.
Definition lift {A} (o : option A) : M A :=
  match o with Some a => ret a | None => undefined end.

(** Run a callback on a handle with an empty effect log. *)
Definition exec {A} (m : M A) (data : etimerfd) : option (A * etimerfd * list effect) :=
  match m (mk_st data []) with
  | Some (a, s) => Some (a, hdl s, log s)
  | None => None
  end.

(** ** erl_interface as the driver uses it *)

(** A C [int] read from a wider integer argument: the low 32 bits, signed. *)
Definition c_int (z : Z) : Z :=
  let r := z mod 2 ^ 32 in if r <? 2 ^ 31 then r else r - 2 ^ 32.

(** [ETERM *erl_mk_int(int n)] *)
Definition erl_mk_int (n : Z) : ETERM := ERL_INTEGER n.

(** The [~i] directive of [erl_format]: erl_interface fetches the argument
    with [va_arg(ap, int)] and builds the term with [erl_mk_int]. *)
Definition fmt_i (arg : Z) : ETERM := erl_mk_int (c_int arg).

(** [ERL_INT_UVALUE(t)] is the [unsigned int] member of an integer term.
    An integer term holds an [int] or an [unsigned int]; for any other term
    the member read is not the term's value. *)
Definition ERL_INT_UVALUE (t : ETERM) : option Z :=
  match t with
  | ERL_INTEGER i =>
      if (- 2 ^ 31 <=? i) && (i <? 2 ^ 32) then Some (i mod 2 ^ 32) else None
  | _ => None
  end.

(** [ERL_ATOM_PTR(t)] is the name of an atom term; on any other term it
    reads a pointer that is not there. *)
Definition ERL_ATOM_PTR (t : ETERM) : option string :=
  match t with
  | ERL_ATOM a => Some a
  | _ => None
  end.

(** [erl_match(erl_format("{{{A,B},{C,D}},E}"), term)] with the contents of
    the five variables. *)
Definition erl_match_settime (term : ETERM)
  : option (ETERM * ETERM * ETERM * ETERM * ETERM) :=
  match term with
  | ERL_TUPLE [ERL_TUPLE [ERL_TUPLE [A; B]; ERL_TUPLE [C; D]]; E] =>
      Some (A, B, C, D, E)
  | _ => None
  end.

(** [erl_format("{~a,{{~i,~i},{~i,~i}}}", ATOM_OK, v.it_interval.tv_sec,
    v.it_interval.tv_nsec, v.it_value.tv_sec, v.it_value.tv_nsec)] *)
Definition fmt_ok_itimerspec (v : itimerspec) : ETERM :=
  ERL_TUPLE [ERL_ATOM ATOM_OK;
             ERL_TUPLE [ERL_TUPLE [fmt_i (tv_sec (it_interval v));
                                   fmt_i (tv_nsec (it_interval v))];
                        ERL_TUPLE [fmt_i (tv_sec (it_value v));
                                   fmt_i (tv_nsec (it_value v))]]].

(** [erl_format("{etimerfd,{timeout,~i}}", count)] *)
Definition fmt_timeout (count : Z) : ETERM :=
  ERL_TUPLE [ERL_ATOM "etimerfd"; ERL_TUPLE [ERL_ATOM "timeout"; fmt_i count]].

(** [erl_format("{etimerfd,{~a,~s}}", ATOM_ERROR, str)] *)
Definition fmt_error (str : string) : ETERM :=
  ERL_TUPLE [ERL_ATOM "etimerfd"; ERL_TUPLE [ERL_ATOM ATOM_ERROR; ERL_STRING str]].

(** Modelled from the spec: [ei_x_extras.h] is not among the sources.  Its
    [ei_x_decode_atom(x, atom)] decodes the next term of the buffer as an
    atom (the Create payload is "a clock-kind atom-like token") and returns
    0 on success; here [Some] of the atom's name. *)
Definition ei_x_decode_atom (x : in_x_buff) : option string :=
  match x with
  | Some (ERL_ATOM a) => Some a
  | _ => None
  end.

(** [ei_decode_term(buff, &index, &term)] stores the decoded term in [term].
    [settime] declares [term] without an initial value and ignores the
    return code, so when nothing decodes [term] holds no determined value:
    [None]. *)
Definition ei_decode_term (x : in_x_buff) : option ETERM := x.

(** ** The driver *)

Definition encode_error (x_buff : ei_x_buff) (str : string) : ei_x_buff :=
  x_buff ++ [EI_TUPLE_HEADER 2; EI_ATOM ATOM_ERROR; EI_STRING str].

Definition create_timer (k : answers) (in_x : in_x_buff) (out_x_buff : ei_x_buff)
  : M (ErlDrvSSizeT * ei_x_buff) :=
  match ei_x_decode_atom in_x with
  | Some atom =>
      let clockid :=
        if String.eqb atom "clock_monotonic" then CLOCK_MONOTONIC
        else if String.eqb atom "clock_realtime" then CLOCK_REALTIME
        else -1 in
      if negb (clockid =? -1) then
        emit (sys_timerfd_create clockid (Z.lor TFD_NONBLOCK TFD_CLOEXEC)) ;;
        set_fd (ans_timerfd_create k) ;;
        data <- get_data ;;
        if fd data <? 0 then
          ret (RET_INDEX, encode_error out_x_buff "timerfd_create failed")
        else
          emit (driver_select (port data) (FD2EVENT (fd data))
                  (Z.lor ERL_DRV_READ ERL_DRV_USE) 1) ;;
          ret (RET_INDEX, out_x_buff ++ [EI_ATOM ATOM_OK])
      else
        ret (RET_NEG1, out_x_buff)
  | None => ret (RET_INDEX, out_x_buff)
  end.

Definition settime (k : answers) (in_x : in_x_buff) (out_x_buff : ei_x_buff)
  : M (ErlDrvSSizeT * ei_x_buff) :=
  match ei_decode_term in_x with
  | None => undefined   (* [if(term == NULL)] reads the indeterminate [term] *)
  | Some term =>
      (* [term] is not [NULL]: the test [if(term == NULL) return -1;] fails *)
      match erl_match_settime term with
      | Some (A, B, C, D, E) =>
          a <- lift (ERL_INT_UVALUE A) ;;
          b <- lift (ERL_INT_UVALUE B) ;;
          c <- lift (ERL_INT_UVALUE C) ;;
          d <- lift (ERL_INT_UVALUE D) ;;
          let new_value := mk_itimerspec (mk_timespec a b) (mk_timespec c d) in
          e <- lift (ERL_ATOM_PTR E) ;;
          let flags := if String.eqb e "true" then TFD_TIMER_ABSTIME else 0 in
          data <- get_data ;;
          emit (sys_timerfd_settime (fd data) flags new_value) ;;
          let (rc, old_value) := ans_timerfd_settime k in
          if rc =? 0 then
            ret (RET_INDEX, out_x_buff ++ [EI_TERM (fmt_ok_itimerspec old_value)])
          else
            ret (RET_INDEX, out_x_buff)
      | None => ret (RET_INDEX, out_x_buff)
      end
  end.

Definition gettime (k : answers) (in_x : in_x_buff) (out_x_buff : ei_x_buff)
  : M (ErlDrvSSizeT * ei_x_buff) :=
  data <- get_data ;;
  emit (sys_timerfd_gettime (fd data)) ;;
  let (rc, curr_value) := ans_timerfd_gettime k in
  if rc =? 0 then
    ret (RET_INDEX, out_x_buff ++ [EI_TERM (fmt_ok_itimerspec curr_value)])
  else
    ret (RET_INDEX, out_x_buff).

Definition ack (in_x : in_x_buff) (out_x_buff : ei_x_buff)
  : M (ErlDrvSSizeT * ei_x_buff) :=
  data <- get_data ;;
  if ack_pending data then
    set_ack_pending false ;;
    emit (driver_select (port data) (FD2EVENT (fd data))
            (Z.lor ERL_DRV_READ ERL_DRV_USE) 1) ;;
    ret (RET_INDEX, out_x_buff ++ [EI_ATOM ATOM_OK])
  else
    ret (RET_INDEX, encode_error out_x_buff "ack not pending").

(** [start]: [alloc] tells whether [driver_alloc] returned memory. *)
Definition start (p : ErlDrvPort) (alloc : bool) : option etimerfd * list effect :=
  if alloc then
    (Some (mk_etimerfd p (-1) false),
     [set_port_control_flags p PORT_CONTROL_FLAG_BINARY])
  else
    (None, [driver_failure_atom p ATOM_NOMEMORY]).

Definition stop : M unit :=
  data <- get_data ;;
  (if negb (fd data =? 0) then
     emit (driver_select (port data) (FD2EVENT (fd data)) ERL_DRV_READ 0) ;;
     emit (sys_close (fd data))
   else ret tt) ;;
  emit driver_free.

(** [control] returns [tmp] and what it stored in [*rbuf] ([None] when it
    returned before storing anything). *)
Definition control (k : answers) (command : Z) (buf : in_x_buff)
  : M (ErlDrvSSizeT * option ei_x_buff) :=
  data <- get_data ;;
  if negb (ans_x_new k =? 0) then
    emit (driver_failure_atom (port data) ATOM_NOMEMORY) ;;
    ret (RET_ZERO, None)
  else
    let out_x_buff : ei_x_buff := [] in
    r <- (if command =? CREATE then create_timer k buf out_x_buff
          else if command =? SETTIME then settime k buf out_x_buff
          else if command =? GETTIME then gettime k buf out_x_buff
          else if command =? ACK then ack buf out_x_buff
          else ret (RET_NEG1, out_x_buff)) ;;
    ret (fst r, Some (snd r)).

Definition ready_input (k : answers) (event : ErlDrvEvent) : M unit :=
  data <- get_data ;;
  if EVENT2FD event =? fd data then
    emit (sys_read (EVENT2FD event) 8) ;;
    let (n, count) := ans_read k in
    if n =? 8 then
      emit (driver_select (port data) (FD2EVENT (fd data))
              (Z.lor ERL_DRV_READ ERL_DRV_USE) 0) ;;
      set_ack_pending true ;;
      emit (driver_output (port data) [EI_TERM (fmt_timeout count)])
    else
      emit (driver_output (port data) [EI_TERM (fmt_error "incorrect read size")])
  else
    ret tt.

(** ** The emulator around the driver

    The emulator keeps, per port, the driver data and the set of events the
    driver has selected for reading.  It calls [ready_input] only for an
    event of that set. *)

Record emulator := mk_emulator {
  drv : etimerfd;
  selected : gset Z
}.

(** [driver_select(port, event, mode, on)] on the read set. *)
Definition select_effect (sel : gset Z) (e : effect) : gset Z :=
  match e with
  | driver_select _ event mode on =>
      if Z.land mode ERL_DRV_READ =? 0 then sel
      else if on =? 0 then sel ∖ {[event]}
      else {[event]} ∪ sel
  | _ => sel
  end.

Definition select_effects (sel : gset Z) (fx : list effect) : gset Z :=
  foldl select_effect sel fx.

Inductive callback :=
| Control (command : Z) (buf : in_x_buff)
| ReadyInput (event : ErlDrvEvent).

(** One callback, with the answers the driver gets while it runs. *)
Definition step (h : emulator) (c : callback) (k : answers)
  : option (emulator * list effect) :=
  match c with
  | Control command buf =>
      match exec (control k command buf) (drv h) with
      | Some (_, data, fx) =>
          Some (mk_emulator data (select_effects (selected h) fx), fx)
      | None => None
      end
  | ReadyInput event =>
      match exec (ready_input k event) (drv h) with
      | Some (_, data, fx) =>
          Some (mk_emulator data (select_effects (selected h) fx), fx)
      | None => None
      end
  end.

(** The port as [start] leaves it: nothing selected yet. *)
Definition boot (p : ErlDrvPort) : emulator :=
  mk_emulator (mk_etimerfd p (-1) false) ∅.

Definition deliverable (h : emulator) (c : callback) : bool :=
  match c with
  | Control _ _ => true
  | ReadyInput event => bool_decide (event ∈ selected h)
  end.

(** A run the emulator can produce: readiness is reported for selected
    events only, and the driver's behaviour is defined at every callback. *)
Fixpoint admissible (h : emulator) (tr : list (callback * answers)) : bool :=
  match tr with
  | [] => true
  | (c, k) :: tr' =>
      deliverable h c &&
      match step h c k with
      | Some (h', _) => admissible h' tr'
      | None => false
      end
  end.

Definition is_output (e : effect) : bool :=
  match e with
  | driver_output _ _ => true
  | _ => false
  end.

Definition is_timeout (e : effect) : bool :=
  match e with
  | driver_output _
      [EI_TERM (ERL_TUPLE [ERL_ATOM "etimerfd"; ERL_TUPLE [ERL_ATOM "timeout"; _]])] =>
      true
  | _ => false
  end.

(** The ack gate along a run: every callback sends at most one message to
    the owner, and a callback that starts with [ack_pending] set sends no
    timeout. *)
Fixpoint ack_gate (h : emulator) (tr : list (callback * answers)) : bool :=
  match tr with
  | [] => true
  | (c, k) :: tr' =>
      match step h c k with
      | Some (h', fx) =>
          (length (filter is_output fx) <=? 1)%nat &&
          (if ack_pending (drv h) then bool_decide (filter is_timeout fx = [])
           else true) &&
          ack_gate h' tr'
      | None => true
      end
  end.

(** A callback other than a Create command on a handle whose
    [ack_pending] is set. *)
Definition create_allowed (h : emulator) (c : callback) : bool :=
  match c with
  | Control command _ => negb ((command =? CREATE) && ack_pending (drv h))
  | ReadyInput _ => true
  end.

(** No Create command reaches the driver while [ack_pending] is set. *)
Fixpoint create_when_unacked (h : emulator) (tr : list (callback * answers)) : bool :=
  match tr with
  | [] => true
  | (c, k) :: tr' =>
      create_allowed h c &&
      match step h c k with
      | Some (h', _) => create_when_unacked h' tr'
      | None => true
      end
  end.

(** The state a run ends in. *)
Fixpoint run (h : emulator) (tr : list (callback * answers)) : option emulator :=
  match tr with
  | [] => Some h
  | (c, k) :: tr' =>
      match step h c k with
      | Some (h', _) => run h' tr'
      | None => None
      end
  end.

(** What keeps the gate shut: while [ack_pending] is set, the handle's
    descriptor is not selected. *)
Definition gate_inv (h : emulator) : Prop :=
  ack_pending (drv h) = true -> fd (drv h) ∉ selected h.

(** The Erlang term [{{{A,B},{C,D}},E}] with integer fields and an atom. *)
Definition settime_payload (a b c d : Z) (e : string) : ETERM :=
  ERL_TUPLE [ERL_TUPLE [ERL_TUPLE [ERL_INTEGER a; ERL_INTEGER b];
                        ERL_TUPLE [ERL_INTEGER c; ERL_INTEGER d]];
             ERL_ATOM e].

(** An integer that fits a C [int]. *)
Definition fits_int (i : Z) : Prop := - 2 ^ 31 <= i < 2 ^ 31.

(** An integer that an [ETERM] stores as [int] or [unsigned int]. *)
Definition fits_int_term (i : Z) : Prop := - 2 ^ 31 <= i < 2 ^ 32.

(** Answers of a kernel where everything succeeds: [timerfd_create] returns
    descriptor 5, the timer was disarmed, the counter reads 1. *)
Definition answers_ok : answers :=
  mk_answers 0 5 (0, mk_itimerspec (mk_timespec 0 0) (mk_timespec 0 0))
             (0, mk_itimerspec (mk_timespec 0 0) (mk_timespec 0 0)) (8, 1).

(** The same kernel when [read] fails. *)
Definition answers_read_fails : answers :=
  mk_answers 0 5 (ans_timerfd_settime answers_ok)
             (ans_timerfd_gettime answers_ok) (-1, 0).

(** A kernel whose timer was armed with [{{0,1000},{2,500}}] before the
    call, and one where [timerfd_settime] and [timerfd_gettime] fail. *)
Definition armed_before : itimerspec :=
  mk_itimerspec (mk_timespec 0 1000) (mk_timespec 2 500).

Definition answers_armed_before : answers :=
  mk_answers 0 5 (0, armed_before) (0, armed_before) (8, 1).

Definition answers_time_fails : answers :=
  mk_answers 0 5 (-1, armed_before) (-1, armed_before) (8, 1).

(** The counter after 2^32 expirations, and a timer that was armed with an
    interval of 3000000000 seconds. *)
Definition answers_count_2_32 : answers :=
  mk_answers 0 5 (ans_timerfd_settime answers_ok)
             (ans_timerfd_gettime answers_ok) (8, 2 ^ 32).

(** The counter after 2^31 expirations, and a timer that was armed with
    [{{2147483648,0},{2147483648,0}}] ten microseconds before the call. *)
Definition answers_count_2_31 : answers :=
  mk_answers 0 5 (ans_timerfd_settime answers_ok)
             (ans_timerfd_gettime answers_ok) (8, 2 ^ 31).

Definition answers_previous_2_31 : answers :=
  mk_answers 0 5
    (0, mk_itimerspec (mk_timespec 2147483648 0) (mk_timespec 2147483647 999990000))
    (ans_timerfd_gettime answers_ok) (8, 1).

Definition answers_long_interval : answers :=
  mk_answers 0 5
    (0, mk_itimerspec (mk_timespec 3000000000 0) (mk_timespec 2999999999 0))
    (ans_timerfd_gettime answers_ok) (8, 1).

(** Two runs of one port.  In both the owner creates a monotonic timer
    (descriptor 5), arms it with a period of 1 ms, and the timer fires.  In
    the first the owner then acknowledges and the timer fires again.  In the
    second the owner, without acknowledging, sends Create again (descriptor
    6), arms that timer, and it fires. *)
Definition answers_fd (d : Z) : answers :=
  mk_answers 0 d (ans_timerfd_settime answers_ok)
             (ans_timerfd_gettime answers_ok) (8, 1).

Definition create_monotonic : callback :=
  Control CREATE (Some (ERL_ATOM "clock_monotonic")).

Definition arm_1ms : callback :=
  Control SETTIME (Some (settime_payload 0 1000000 0 1000000 "false")).

Definition acked_run : list (callback * answers) :=
  [(create_monotonic, answers_fd 5); (arm_1ms, answers_fd 5);
   (ReadyInput 5, answers_fd 5); (Control ACK None, answers_fd 5);
   (ReadyInput 5, answers_fd 5)].

Definition recreate_prefix : list (callback * answers) :=
  [(create_monotonic, answers_fd 5); (arm_1ms, answers_fd 5);
   (ReadyInput 5, answers_fd 5);
   (create_monotonic, answers_fd 6); (arm_1ms, answers_fd 6)].

Definition recreate_run : list (callback * answers) :=
  recreate_prefix ++ [(ReadyInput 6, answers_fd 6)].

(** ** Outcomes of the callbacks, and what is counted along a run *)

(** Every way a call of [control] can end. *)
Inductive control_outcome (k : answers) (command : Z) (data : etimerfd)
  : ErlDrvSSizeT -> option ei_x_buff -> etimerfd -> list effect -> Prop :=
| co_no_memory :
    ans_x_new k <> 0 ->
    control_outcome k command data RET_ZERO None data
      [driver_failure_atom (port data) ATOM_NOMEMORY]
| co_crash :
    ans_x_new k = 0 ->
    control_outcome k command data RET_NEG1 (Some []) data []
| co_silent :
    ans_x_new k = 0 ->
    command = CREATE \/ command = SETTIME ->
    control_outcome k command data RET_INDEX (Some []) data []
| co_created (clockid : Z) :
    ans_x_new k = 0 ->
    command = CREATE ->
    clockid = CLOCK_MONOTONIC \/ clockid = CLOCK_REALTIME ->
    0 <= ans_timerfd_create k ->
    control_outcome k command data RET_INDEX (Some [EI_ATOM ATOM_OK])
      (mk_etimerfd (port data) (ans_timerfd_create k) (ack_pending data))
      [sys_timerfd_create clockid (Z.lor TFD_NONBLOCK TFD_CLOEXEC);
       driver_select (port data) (ans_timerfd_create k)
         (Z.lor ERL_DRV_READ ERL_DRV_USE) 1]
| co_create_failed (clockid : Z) :
    ans_x_new k = 0 ->
    command = CREATE ->
    clockid = CLOCK_MONOTONIC \/ clockid = CLOCK_REALTIME ->
    ans_timerfd_create k < 0 ->
    control_outcome k command data RET_INDEX
      (Some (encode_error [] "timerfd_create failed"))
      (mk_etimerfd (port data) (ans_timerfd_create k) (ack_pending data))
      [sys_timerfd_create clockid (Z.lor TFD_NONBLOCK TFD_CLOEXEC)]
| co_settime (flags : Z) (new_value : itimerspec) :
    ans_x_new k = 0 ->
    command = SETTIME ->
    control_outcome k command data RET_INDEX
      (Some (if fst (ans_timerfd_settime k) =? 0
             then [EI_TERM (fmt_ok_itimerspec (snd (ans_timerfd_settime k)))]
             else []))
      data [sys_timerfd_settime (fd data) flags new_value]
| co_gettime :
    ans_x_new k = 0 ->
    command = GETTIME ->
    control_outcome k command data RET_INDEX
      (Some (if fst (ans_timerfd_gettime k) =? 0
             then [EI_TERM (fmt_ok_itimerspec (snd (ans_timerfd_gettime k)))]
             else []))
      data [sys_timerfd_gettime (fd data)]
| co_ack :
    ans_x_new k = 0 ->
    command = ACK ->
    ack_pending data = true ->
    control_outcome k command data RET_INDEX (Some [EI_ATOM ATOM_OK])
      (mk_etimerfd (port data) (fd data) false)
      [driver_select (port data) (fd data) (Z.lor ERL_DRV_READ ERL_DRV_USE) 1]
| co_ack_not_pending :
    ans_x_new k = 0 ->
    command = ACK ->
    ack_pending data = false ->
    control_outcome k command data RET_INDEX
      (Some (encode_error [] "ack not pending")) data [].

(** Every way a [ready_input] callback can end. *)
Inductive ready_outcome (k : answers) (event : ErlDrvEvent) (data : etimerfd)
  : etimerfd -> list effect -> Prop :=
| ro_stale :
    EVENT2FD event <> fd data ->
    ready_outcome k event data data []
| ro_short_read :
    EVENT2FD event = fd data ->
    fst (ans_read k) <> 8 ->
    ready_outcome k event data data
      [sys_read (fd data) 8;
       driver_output (port data) [EI_TERM (fmt_error "incorrect read size")]]
| ro_timeout :
    EVENT2FD event = fd data ->
    fst (ans_read k) = 8 ->
    ready_outcome k event data (mk_etimerfd (port data) (fd data) true)
      [sys_read (fd data) 8;
       driver_select (port data) (fd data) (Z.lor ERL_DRV_READ ERL_DRV_USE) 0;
       driver_output (port data) [EI_TERM (fmt_timeout (snd (ans_read k)))]].

(** The effects of a whole run, in order. *)
Fixpoint run_effects (h : emulator) (tr : list (callback * answers)) : list effect :=
  match tr with
  | [] => []
  | (c, k) :: tr' =>
      match step h c k with
      | Some (h', fx) => fx ++ run_effects h' tr'
      | None => []
      end
  end.

(** Effects that give a resource back: [close] and [driver_free]. *)
Definition is_release (e : effect) : bool :=
  match e with
  | sys_close _ | driver_free => true
  | _ => false
  end.

(** The port an emulator call is made on. *)
Definition effect_port (e : effect) : option ErlDrvPort :=
  match e with
  | driver_select p _ _ _ | driver_output p _
  | driver_failure_atom p _ | set_port_control_flags p _ => Some p
  | _ => None
  end.

Definition on_port (p : ErlDrvPort) (e : effect) : Prop :=
  effect_port e = None \/ effect_port e = Some p.

(** An Ack command that the driver answers with [ok]. *)
Definition acked (h : emulator) (c : callback) (k : answers) : bool :=
  match c with
  | Control command buf =>
      (command =? ACK) &&
      match exec (control k command buf) (drv h) with
      | Some (RET_INDEX, Some [EI_ATOM "ok"], _, _) => true
      | _ => false
      end
  | ReadyInput _ => false
  end.

Fixpoint acks_ok (h : emulator) (tr : list (callback * answers)) : nat :=
  match tr with
  | [] => O
  | (c, k) :: tr' =>
      match step h c k with
      | Some (h', _) => ((if acked h c k then 1 else 0) + acks_ok h' tr')%nat
      | None => O
      end
  end.

(** The number of timeout notifications a run sends to the owner. *)
Definition timeouts_sent (h : emulator) (tr : list (callback * answers)) : nat :=
  length (filter is_timeout (run_effects h tr)).

Definition outstanding (h : emulator) : nat :=
  if ack_pending (drv h) then 1%nat else 0%nat.


(** The value an [unsigned int] member holds for an integer term. *)
Definition wrap_uint (a : Z) : Z := if a <? 0 then a + 2 ^ 32 else a.

(** A kernel like [answers_ok] where the reply buffer cannot be allocated,
    and one where [timerfd_create] fails. *)
Definition answers_no_memory : answers :=
  mk_answers (-1) 5 (ans_timerfd_settime answers_ok)
             (ans_timerfd_gettime answers_ok) (8, 1).

Definition answers_create_fails : answers :=
  mk_answers 0 (-1) (ans_timerfd_settime answers_ok)
             (ans_timerfd_gettime answers_ok) (8, 1).

(** ** test/timerfd_tests.erl: the performance loop *)

Module timerfd_tests.

(** The map [perf_loop] threads through its calls. *)
Record state := mk_state {
  count : Z;
  timer : Z;
  time : Z;
  span_list : list Z;
  expiration_list : list Z
}.

(** What one pass through [receive] finds: a message [{Timer,{data,Data}}]
    whose [Data] decodes to [{timerfd,ready}], with the value
    [monotonic_time(micro_seconds)] returns and the expiration count (if
    any) in the reply of [timerfd:read(Timer)]; or such a message whose
    [Data] decodes to another term.  An empty mailbox stands for the
    [after 1000] branch. *)
Inductive message :=
| timerfd_ready (now : Z) (read : option Z)
| other_term.

Inductive result :=
| ok (s : state)
| throw (reason : string)
| error (reason : string).

Fixpoint perf_loop (mailbox : list message) (s : state) : result :=
  if 0 <? count s then
    match mailbox with
    | timerfd_ready now (Some expiration) :: mailbox' =>
        perf_loop mailbox'
          (mk_state (count s - 1) (timer s) now
                    ((now - time s) :: span_list s)
                    (expiration :: expiration_list s))
    | timerfd_ready _ None :: _ => error "badmatch"
    | other_term :: _ => error "case_clause"
    | [] => throw "timeout waiting for message"
    end
  else ok s.

(** [lists:foldl(Fun, Acc0, List)] calls [Fun(Elem, AccIn)]. *)
Definition lists_foldl {A B} (f : A -> B -> B) (acc0 : B) (l : list A) : B :=
  fold_left (fun acc x => f x acc) l acc0.

(** [SpanFold] and [Expirations] of [perf_print_stats]. *)
Definition SpanFold (SpanList : list Z) : Z * Z :=
  lists_foldl (fun X '(Len, Sum) => (Len + 1, Sum + X)) (0, 0) SpanList.

Definition Expirations (ExpirationList : list Z) : Z :=
  lists_foldl (fun X Sum => Sum + X) 0 ExpirationList.

(** The messages [perf_loop] consumes are all of the first kind. *)
Definition all_ready (mailbox : list message) : Prop :=
  Forall (fun m => exists now expiration, m = timerfd_ready now (Some expiration))
         mailbox.

End timerfd_tests.

Definition sum_Z (l : list Z) : Z := fold_right Z.add 0 l.

Definition perf_mailbox : list timerfd_tests.message :=
  [timerfd_tests.timerfd_ready 1500 (Some 1);
   timerfd_tests.timerfd_ready 2010 (Some 1);
   timerfd_tests.timerfd_ready 2490 (Some 2)].

(** * Properties *)

#[local] Set Warnings "-clear-no-such-hyp".

Ltac unfold_driver :=
  unfold step, exec, control, create_timer, settime, gettime, ack,
    ready_input, stop, lift, bind, ret, get_data, set_fd, set_ack_pending,
    emit, undefined, EVENT2FD, FD2EVENT in *.

Lemma c_int_id (z : Z) : - 2 ^ 31 <= z < 2 ^ 31 -> c_int z = z.
Proof.
  intros Hz. unfold c_int.
  destruct (Z.ltb_spec (z mod 2 ^ 32) (2 ^ 31)) as [Hlt | Hge].
  - destruct (Z.neg_nonneg_cases z) as [Hneg | Hpos].
    + assert (z mod 2 ^ 32 = z + 2 ^ 32) as Heq; [| lia].
      symmetry. apply (Z.mod_unique_pos z (2 ^ 32) (-1)); lia.
    + apply Z.mod_small. lia.
  - destruct (Z.neg_nonneg_cases z) as [Hneg | Hpos].
    + assert (z mod 2 ^ 32 = z + 2 ^ 32) as Heq; [| lia].
      symmetry. apply (Z.mod_unique_pos z (2 ^ 32) (-1)); lia.
    + rewrite Z.mod_small in Hge; lia.
Qed.

Lemma ERL_INT_UVALUE_fits (i : Z) :
  fits_int_term i -> ERL_INT_UVALUE (ERL_INTEGER i) = Some (i mod 2 ^ 32).
Proof.
  intros [Hlo Hhi]. unfold ERL_INT_UVALUE.
  destruct (Z.leb_spec (- 2 ^ 31) i); [| lia].
  destruct (Z.ltb_spec i (2 ^ 32)); [reflexivity | lia].
Qed.

(** [~i] renders an argument that fits a C [int] as itself. *)
Lemma fmt_i_exact (z : Z) :
  fits_int z -> fmt_i z = ERL_INTEGER z.
Proof. intros Hz. unfold fmt_i, erl_mk_int. rewrite c_int_id; auto. Qed.

(** C3. Ack: dispatched while [ack_pending] is set, it clears the flag,
    selects the descriptor for reading again and replies [ok]; dispatched
    while the flag is clear, it replies [{error, "ack not pending"}] and
    changes nothing in the handle and selects nothing. *)
Theorem ack_command_semantics (k : answers) (data : etimerfd) (buf : in_x_buff) :
  ans_x_new k = 0 ->
  exec (control k ACK buf) data =
    Some (if ack_pending data then
            (RET_INDEX, Some [EI_ATOM "ok"],
             mk_etimerfd (port data) (fd data) false,
             [driver_select (port data) (fd data)
                (Z.lor ERL_DRV_READ ERL_DRV_USE) 1])
          else
            (RET_INDEX,
             Some [EI_TUPLE_HEADER 2; EI_ATOM "error"; EI_STRING "ack not pending"],
             data, [])).
Proof.
  intros Hnew. destruct data as [p d pending]. unfold_driver. simpl.
  rewrite Hnew. simpl. destruct pending; reflexivity.
Qed.

Lemma ack_command_semantics_witness :
  ans_x_new answers_ok = 0 /\
  exec (control answers_ok ACK None) (mk_etimerfd 1 5 true) =
    Some (RET_INDEX, Some [EI_ATOM "ok"], mk_etimerfd 1 5 false,
          [driver_select 1 5 (Z.lor ERL_DRV_READ ERL_DRV_USE) 1]).
Proof.
  split; [reflexivity |].
  exact (ack_command_semantics answers_ok (mk_etimerfd 1 5 true) None eq_refl).
Defined.

(** ARMED to NOTIFIED: when [ready_input] runs for the descriptor of an
    armed handle ([ack_pending] clear, descriptor valid) and [read] returns
    all 8 bytes of the counter, the driver deselects the descriptor, sets
    [ack_pending], and sends the owner exactly one message, the timeout
    notification that [erl_format] builds from the count read; for a count
    below 2^31 that is [{etimerfd,{timeout,count}}]. *)
Theorem ready_input_armed_to_notified (k : answers) (h : emulator) (count : Z) :
  ack_pending (drv h) = false ->
  0 <= fd (drv h) ->
  ans_read k = (8, count) ->
  step h (ReadyInput (FD2EVENT (fd (drv h)))) k =
    Some (mk_emulator (mk_etimerfd (port (drv h)) (fd (drv h)) true)
                      (selected h ∖ {[fd (drv h)]}),
          [sys_read (fd (drv h)) 8;
           driver_select (port (drv h)) (fd (drv h))
             (Z.lor ERL_DRV_READ ERL_DRV_USE) 0;
           driver_output (port (drv h)) [EI_TERM (fmt_timeout count)]])
  /\ (0 <= count < 2 ^ 31 ->
      fmt_timeout count =
        ERL_TUPLE [ERL_ATOM "etimerfd";
                   ERL_TUPLE [ERL_ATOM "timeout"; ERL_INTEGER count]]).
Proof.
  intros Hack Hfd Hread. split.
  - destruct h as [[p d pending] sel].
    unfold_driver. simpl in *. rewrite Z.eqb_refl, Hread. reflexivity.
  - intros Hcount. unfold fmt_timeout.
    rewrite fmt_i_exact by (unfold fits_int; lia). reflexivity.
Qed.

Lemma ready_input_armed_to_notified_witness :
  ack_pending (mk_etimerfd 1 5 false) = false /\
  0 <= fd (mk_etimerfd 1 5 false) /\
  ans_read answers_ok = (8, 1) /\
  step (mk_emulator (mk_etimerfd 1 5 false) {[5]}) (ReadyInput 5) answers_ok =
    Some (mk_emulator (mk_etimerfd 1 5 true) ({[5]} ∖ {[5]}),
          [sys_read 5 8;
           driver_select 1 5 (Z.lor ERL_DRV_READ ERL_DRV_USE) 0;
           driver_output 1 [EI_TERM (fmt_timeout 1)]]).
Proof.
  split; [reflexivity |]. split; [simpl; lia |]. split; [reflexivity |].
  refine (proj1 (ready_input_armed_to_notified answers_ok
                   (mk_emulator (mk_etimerfd 1 5 false) {[5]}) 1 eq_refl _ eq_refl)).
  simpl; lia.
Defined.

(** C4. Short read: when [read] does not return 8 bytes, [ready_input]
    sends the owner [{etimerfd,{error,"incorrect read size"}}] and nothing
    else happens: no [driver_select], [ack_pending] as before, so the
    emulator is in the state it was in and the event stays selected. *)
Theorem ready_input_short_read (k : answers) (h : emulator) (n count : Z) :
  ans_read k = (n, count) ->
  n <> 8 ->
  step h (ReadyInput (FD2EVENT (fd (drv h)))) k =
    Some (h,
          [sys_read (fd (drv h)) 8;
           driver_output (port (drv h))
             [EI_TERM (ERL_TUPLE [ERL_ATOM "etimerfd";
                                  ERL_TUPLE [ERL_ATOM "error";
                                             ERL_STRING "incorrect read size"]])]]).
Proof.
  intros Hread Hn. destruct h as [[p d pending] sel].
  unfold_driver. simpl in *. rewrite Z.eqb_refl, Hread.
  destruct (Z.eqb_spec n 8) as [Heq | _]; [contradiction | reflexivity].
Qed.

Lemma ready_input_short_read_witness :
  ans_read answers_read_fails = (-1, 0) /\
  -1 <> 8 /\
  step (mk_emulator (mk_etimerfd 1 5 false) {[5]}) (ReadyInput 5)
       answers_read_fails =
    Some (mk_emulator (mk_etimerfd 1 5 false) {[5]},
          [sys_read 5 8;
           driver_output 1
             [EI_TERM (ERL_TUPLE [ERL_ATOM "etimerfd";
                                  ERL_TUPLE [ERL_ATOM "error";
                                             ERL_STRING "incorrect read size"]])]]).
Proof.
  split; [reflexivity |]. split; [lia |].
  refine (ready_input_short_read answers_read_fails (mk_emulator (mk_etimerfd 1 5 false) {[5]})
            (-1) 0 eq_refl _).
  lia.
Defined.

(** C10. Stale event: when [ready_input] is called with an event that is
    not the handle's descriptor, it does nothing at all: no system call, no
    message, and descriptor, [ack_pending] and read set stay as they were. *)
Theorem ready_input_stale_event (k : answers) (h : emulator) (event : ErlDrvEvent) :
  EVENT2FD event <> fd (drv h) ->
  step h (ReadyInput event) k = Some (h, []).
Proof.
  intros Hne. destruct h as [[p d pending] sel].
  unfold_driver. simpl in *.
  destruct (Z.eqb_spec event d) as [Heq | _]; [contradiction | reflexivity].
Qed.

Lemma ready_input_stale_event_witness :
  EVENT2FD 5 <> fd (mk_etimerfd 1 6 true) /\
  step (mk_emulator (mk_etimerfd 1 6 true) {[5]}) (ReadyInput 5) answers_ok =
    Some (mk_emulator (mk_etimerfd 1 6 true) {[5]}, []).
Proof.
  split; [unfold EVENT2FD; simpl; lia |].
  refine (ready_input_stale_event answers_ok
            (mk_emulator (mk_etimerfd 1 6 true) {[5]}) 5 _).
  unfold EVENT2FD; simpl; lia.
Defined.

(** SetTime on a well-shaped payload [{{{A,B},{C,D}},E}]: the driver
    calls [timerfd_settime] with [TFD_TIMER_ABSTIME] exactly when [E] is the
    atom [true] and with flags 0 otherwise, and when the call returns 0 the
    reply is [ok] paired with the [old_value] the kernel handed back,
    whatever the payload asked for; fields of [old_value] that fit a C
    [int] appear in the reply as they are. *)
Theorem settime_success (k : answers) (data : etimerfd)
    (a b c d : Z) (e : string) (old_value : itimerspec) :
  ans_x_new k = 0 ->
  fits_int_term a -> fits_int_term b -> fits_int_term c -> fits_int_term d ->
  ans_timerfd_settime k = (0, old_value) ->
  exec (control k SETTIME (Some (settime_payload a b c d e))) data =
    Some (RET_INDEX, Some [EI_TERM (fmt_ok_itimerspec old_value)], data,
          [sys_timerfd_settime (fd data)
             (if decide (e = "true") then TFD_TIMER_ABSTIME else 0)
             (mk_itimerspec (mk_timespec (a mod 2 ^ 32) (b mod 2 ^ 32))
                            (mk_timespec (c mod 2 ^ 32) (d mod 2 ^ 32)))])
  /\ (fits_int (tv_sec (it_interval old_value)) ->
      fits_int (tv_nsec (it_interval old_value)) ->
      fits_int (tv_sec (it_value old_value)) ->
      fits_int (tv_nsec (it_value old_value)) ->
      fmt_ok_itimerspec old_value =
        ERL_TUPLE [ERL_ATOM "ok";
                   ERL_TUPLE
                     [ERL_TUPLE [ERL_INTEGER (tv_sec (it_interval old_value));
                                 ERL_INTEGER (tv_nsec (it_interval old_value))];
                      ERL_TUPLE [ERL_INTEGER (tv_sec (it_value old_value));
                                 ERL_INTEGER (tv_nsec (it_value old_value))]]]).
Proof.
  intros Hnew Ha Hb Hc Hd Hk. split.
  - destruct data as [p fd0 pending].
    unfold_driver. unfold settime_payload, ei_decode_term, erl_match_settime.
    cbn [hdl log port fd ack_pending]. rewrite Hnew. cbn [Z.eqb negb].
    replace (SETTIME =? CREATE) with false by reflexivity.
    replace (SETTIME =? SETTIME) with true by reflexivity.
    rewrite !ERL_INT_UVALUE_fits by assumption.
    cbn [ERL_ATOM_PTR hdl log port fd ack_pending app]. rewrite Hk.
    cbn [Z.eqb fst snd hdl log app].
    destruct (String.eqb_spec e "true") as [-> | Hne].
    + rewrite decide_True by reflexivity. reflexivity.
    + rewrite decide_False by assumption. reflexivity.
  - intros H1 H2 H3 H4. unfold fmt_ok_itimerspec.
    rewrite !fmt_i_exact by assumption. reflexivity.
Qed.

Lemma settime_success_witness :
  ans_x_new answers_armed_before = 0 /\
  fits_int_term 0 /\ fits_int_term 1000000 /\
  ans_timerfd_settime answers_armed_before = (0, armed_before) /\
  exec (control answers_armed_before SETTIME
          (Some (settime_payload 0 1000000 0 1000000 "false")))
       (mk_etimerfd 1 5 false) =
    Some (RET_INDEX, Some [EI_TERM (fmt_ok_itimerspec armed_before)],
          mk_etimerfd 1 5 false,
          [sys_timerfd_settime 5 0
             (mk_itimerspec (mk_timespec (0 mod 2 ^ 32) (1000000 mod 2 ^ 32))
                            (mk_timespec (0 mod 2 ^ 32) (1000000 mod 2 ^ 32)))]).
Proof.
  assert (fits_int_term 0) as H0 by (unfold fits_int_term; lia).
  assert (fits_int_term 1000000) as H1 by (unfold fits_int_term; lia).
  split; [reflexivity |]. split; [exact H0 |]. split; [exact H1 |].
  split; [reflexivity |].
  exact (proj1 (settime_success answers_armed_before (mk_etimerfd 1 5 false)
                  0 1000000 0 1000000 "false" armed_before
                  eq_refl H0 H1 H0 H1 eq_refl)).
Defined.

(** C7. No reply on a failed kernel call: when [timerfd_settime] (reached
    with a well-shaped payload) or [timerfd_gettime] does not return 0, the
    driver encodes nothing: [control] hands back a reply buffer that holds
    no term, and the handle is as before. *)
Theorem settime_gettime_failure_no_reply (k1 k2 : answers) (data : etimerfd)
    (a b c d : Z) (e : string) (buf : in_x_buff) :
  ans_x_new k1 = 0 -> ans_x_new k2 = 0 ->
  fits_int_term a -> fits_int_term b -> fits_int_term c -> fits_int_term d ->
  fst (ans_timerfd_settime k1) <> 0 ->
  fst (ans_timerfd_gettime k2) <> 0 ->
  exec (control k1 SETTIME (Some (settime_payload a b c d e))) data =
    Some (RET_INDEX, Some [], data,
          [sys_timerfd_settime (fd data)
             (if decide (e = "true") then TFD_TIMER_ABSTIME else 0)
             (mk_itimerspec (mk_timespec (a mod 2 ^ 32) (b mod 2 ^ 32))
                            (mk_timespec (c mod 2 ^ 32) (d mod 2 ^ 32)))])
  /\ exec (control k2 GETTIME buf) data =
       Some (RET_INDEX, Some [], data, [sys_timerfd_gettime (fd data)]).
Proof.
  intros Hnew1 Hnew2 Ha Hb Hc Hd Hset Hget. destruct data as [p fd0 pending].
  split.
  - unfold_driver. unfold settime_payload, ei_decode_term, erl_match_settime.
    cbn [hdl log port fd ack_pending]. rewrite Hnew1. cbn [Z.eqb negb].
    replace (SETTIME =? CREATE) with false by reflexivity.
    replace (SETTIME =? SETTIME) with true by reflexivity.
    rewrite !ERL_INT_UVALUE_fits by assumption.
    cbn [ERL_ATOM_PTR hdl log port fd ack_pending app].
    destruct (ans_timerfd_settime k1) as [rc old_value]. cbn [fst] in Hset.
    destruct (Z.eqb_spec rc 0) as [Heq | _]; [contradiction |].
    cbn [fst snd hdl log app].
    destruct (String.eqb_spec e "true") as [-> | Hne].
    + rewrite decide_True by reflexivity. reflexivity.
    + rewrite decide_False by assumption. reflexivity.
  - unfold_driver. cbn [hdl log port fd ack_pending]. rewrite Hnew2.
    cbn [Z.eqb negb].
    replace (GETTIME =? CREATE) with false by reflexivity.
    replace (GETTIME =? SETTIME) with false by reflexivity.
    replace (GETTIME =? GETTIME) with true by reflexivity.
    cbn [hdl log port fd ack_pending app].
    destruct (ans_timerfd_gettime k2) as [rc curr_value]. cbn [fst] in Hget.
    destruct (Z.eqb_spec rc 0) as [Heq | _]; [contradiction | reflexivity].
Qed.

Lemma settime_gettime_failure_no_reply_witness :
  ans_x_new answers_time_fails = 0 /\
  fits_int_term 0 /\ fits_int_term 1000000 /\
  fst (ans_timerfd_settime answers_time_fails) <> 0 /\
  fst (ans_timerfd_gettime answers_time_fails) <> 0 /\
  exec (control answers_time_fails SETTIME
          (Some (settime_payload 0 1000000 0 1000000 "true")))
       (mk_etimerfd 1 5 false) =
    Some (RET_INDEX, Some [], mk_etimerfd 1 5 false,
          [sys_timerfd_settime 5 TFD_TIMER_ABSTIME
             (mk_itimerspec (mk_timespec (0 mod 2 ^ 32) (1000000 mod 2 ^ 32))
                            (mk_timespec (0 mod 2 ^ 32) (1000000 mod 2 ^ 32)))]) /\
  exec (control answers_time_fails GETTIME None) (mk_etimerfd 1 5 false) =
    Some (RET_INDEX, Some [], mk_etimerfd 1 5 false, [sys_timerfd_gettime 5]).
Proof.
  assert (fits_int_term 0) as H0 by (unfold fits_int_term; lia).
  assert (fits_int_term 1000000) as H1 by (unfold fits_int_term; lia).
  assert (fst (ans_timerfd_settime answers_time_fails) <> 0) as Hs by (simpl; lia).
  assert (fst (ans_timerfd_gettime answers_time_fails) <> 0) as Hg by (simpl; lia).
  split; [reflexivity |]. split; [exact H0 |]. split; [exact H1 |].
  split; [exact Hs |]. split; [exact Hg |].
  exact (settime_gettime_failure_no_reply answers_time_fails answers_time_fails
           (mk_etimerfd 1 5 false) 0 1000000 0 1000000 "true" None
           eq_refl eq_refl H0 H1 H0 H1 Hs Hg).
Defined.

(** Create with an atom that names no clock: [control] returns -1, creates
    nothing and replies nothing. *)
Lemma create_unrecognized_atom (k : answers) (data : etimerfd) (atom : string) :
  ans_x_new k = 0 ->
  atom <> "clock_monotonic" -> atom <> "clock_realtime" ->
  exec (control k CREATE (Some (ERL_ATOM atom))) data =
    Some (RET_NEG1, Some [], data, []).
Proof.
  intros Hnew Hm Hr. destruct data as [p fd0 pending].
  unfold_driver. cbn [hdl log port fd ack_pending ei_x_decode_atom].
  rewrite Hnew. cbn [Z.eqb negb].
  replace (CREATE =? CREATE) with true by reflexivity.
  destruct (String.eqb_spec atom "clock_monotonic") as [? | _]; [contradiction |].
  destruct (String.eqb_spec atom "clock_realtime") as [? | _]; [contradiction |].
  reflexivity.
Qed.

(** Create with a payload that does not decode as an atom: [create_timer]
    skips its whole body and returns [out_x_buff->index]. *)
Lemma create_undecodable_payload (k : answers) (data : etimerfd) (buf : in_x_buff) :
  ans_x_new k = 0 ->
  ei_x_decode_atom buf = None ->
  exec (control k CREATE buf) data = Some (RET_INDEX, Some [], data, []).
Proof.
  intros Hnew Hdec. destruct data as [p fd0 pending].
  unfold_driver. cbn [hdl log port fd ack_pending].
  rewrite Hnew, Hdec. reflexivity.
Qed.

(** C5. Create with the string ["notaclockid"], or with bytes that hold no
    term, as payload: [control] does not return -1; it returns the index of
    a reply buffer that holds no term, and the handle stays without a
    descriptor.  The atom [notaclockid] does make it return -1. *)
Theorem create_undecodable_payload_returns_index :
  exec (control answers_ok CREATE (Some (ERL_STRING "notaclockid")))
       (mk_etimerfd 1 (-1) false) =
    Some (RET_INDEX, Some [], mk_etimerfd 1 (-1) false, [])
  /\ exec (control answers_ok CREATE None) (mk_etimerfd 1 (-1) false) =
       Some (RET_INDEX, Some [], mk_etimerfd 1 (-1) false, [])
  /\ exec (control answers_ok CREATE (Some (ERL_ATOM "notaclockid")))
          (mk_etimerfd 1 (-1) false) =
       Some (RET_NEG1, Some [], mk_etimerfd 1 (-1) false, []).
Proof. repeat split; reflexivity. Qed.

(** [stop] on a handle that holds descriptor 0 releases nothing. *)
Lemma stop_descriptor_zero (p : ErlDrvPort) (pending : bool) :
  exec stop (mk_etimerfd p 0 pending) =
    Some (tt, mk_etimerfd p 0 pending, [driver_free]).
Proof. reflexivity. Qed.

(** [stop] on a handle whose [fd] is not 0 deselects and closes it. *)
Lemma stop_nonzero (data : etimerfd) :
  fd data <> 0 ->
  exec stop data =
    Some (tt, data,
          [driver_select (port data) (fd data) ERL_DRV_READ 0;
           sys_close (fd data); driver_free]).
Proof.
  intros Hfd. destruct data as [p fd0 pending]. unfold_driver.
  cbn [hdl log port fd ack_pending] in *.
  destruct (Z.eqb_spec fd0 0) as [? | _]; [contradiction | reflexivity].
Qed.

(** C8. [stop] on the handle [start] returns, which holds no descriptor
    ([fd] is -1): the test [if(data->fd)] passes, so the driver calls
    [driver_select] and [close] on -1 before it frees the handle. *)
Theorem stop_never_created_handle (p : ErlDrvPort) :
  fst (start p true) = Some (mk_etimerfd p (-1) false)
  /\ exec stop (mk_etimerfd p (-1) false) =
       Some (tt, mk_etimerfd p (-1) false,
             [driver_select p (-1) ERL_DRV_READ 0; sys_close (-1); driver_free]).
Proof. split; reflexivity. Qed.

(** C2. ARMED to NOTIFIED with a counter of 2^31 expirations: the driver
    deselects the descriptor, sets [ack_pending] and sends one timeout
    notification, but the notification carries -2147483648, not the count
    read. *)
Theorem ready_input_count_not_carried :
  ans_read answers_count_2_31 = (8, 2147483648)
  /\ step (mk_emulator (mk_etimerfd 1 5 false) {[5]}) (ReadyInput 5)
          answers_count_2_31 =
       Some (mk_emulator (mk_etimerfd 1 5 true) ({[5]} ∖ {[5]}),
             [sys_read 5 8;
              driver_select 1 5 (Z.lor ERL_DRV_READ ERL_DRV_USE) 0;
              driver_output 1
                [EI_TERM (ERL_TUPLE [ERL_ATOM "etimerfd";
                                     ERL_TUPLE [ERL_ATOM "timeout";
                                                ERL_INTEGER (-2147483648)]])]]).
Proof. split; reflexivity. Qed.

(** C6. SetTime on a timer whose previous spec the kernel reports as
    [{{2147483648,0},{2147483647,999990000}}]: the call is made with flags
    0 for the atom [false] and succeeds, but the reply pairs [ok] with
    [{{-2147483648,0},{2147483647,999990000}}], not with the previous spec. *)
Theorem settime_previous_spec_not_returned :
  ans_timerfd_settime answers_previous_2_31 =
    (0, mk_itimerspec (mk_timespec 2147483648 0) (mk_timespec 2147483647 999990000))
  /\ exec (control answers_previous_2_31 SETTIME
             (Some (settime_payload 0 0 0 0 "false")))
          (mk_etimerfd 1 5 false) =
       Some (RET_INDEX,
             Some [EI_TERM
                     (ERL_TUPLE [ERL_ATOM "ok";
                                 ERL_TUPLE [ERL_TUPLE [ERL_INTEGER (-2147483648);
                                                       ERL_INTEGER 0];
                                            ERL_TUPLE [ERL_INTEGER 2147483647;
                                                       ERL_INTEGER 999990000]]])],
             mk_etimerfd 1 5 false,
             [sys_timerfd_settime 5 0
                (mk_itimerspec (mk_timespec 0 0) (mk_timespec 0 0))]).
Proof. split; reflexivity. Qed.

(** C9. Numeric width: a counter of 2^32 expirations reaches the owner as
    [{etimerfd,{timeout,0}}], and a previous interval of 3000000000 seconds
    is replied as -1294967296: [~i] formats a C [int]. *)
Theorem timeout_count_narrowed_to_int :
  step (mk_emulator (mk_etimerfd 1 5 false) {[5]}) (ReadyInput 5)
       answers_count_2_32 =
    Some (mk_emulator (mk_etimerfd 1 5 true) ({[5]} ∖ {[5]}),
          [sys_read 5 8;
           driver_select 1 5 (Z.lor ERL_DRV_READ ERL_DRV_USE) 0;
           driver_output 1
             [EI_TERM (ERL_TUPLE [ERL_ATOM "etimerfd";
                                  ERL_TUPLE [ERL_ATOM "timeout";
                                             ERL_INTEGER 0]])]])
  /\ exec (control answers_long_interval SETTIME
             (Some (settime_payload 0 0 0 0 "false")))
          (mk_etimerfd 1 5 false) =
       Some (RET_INDEX,
             Some [EI_TERM
                     (ERL_TUPLE [ERL_ATOM "ok";
                                 ERL_TUPLE [ERL_TUPLE [ERL_INTEGER (-1294967296);
                                                       ERL_INTEGER 0];
                                            ERL_TUPLE [ERL_INTEGER (-1294967297);
                                                       ERL_INTEGER 0]]])],
             mk_etimerfd 1 5 false,
             [sys_timerfd_settime 5 0
                (mk_itimerspec (mk_timespec 0 0) (mk_timespec 0 0))]).
Proof. split; reflexivity. Qed.

(** ** The ack gate along runs *)

(** A Control callback sends the owner nothing, and unless it is a Create on
    a handle with [ack_pending] set it either leaves [ack_pending] clear or
    leaves the port as it was. *)
Lemma step_control_gate (h h' : emulator) (command : Z) (buf : in_x_buff)
    (k : answers) (fx : list effect) :
  create_allowed h (Control command buf) = true ->
  step h (Control command buf) k = Some (h', fx) ->
  filter is_output fx = []
  /\ filter is_timeout fx = []
  /\ (ack_pending (drv h') = false \/ h' = h).
Proof.
  intros Hcr Hstep. destruct h as [[p fd0 pending] sel].
  unfold_driver.
  cbn [hdl log port fd ack_pending drv selected create_allowed] in *.
  destruct (negb (ans_x_new k =? 0)).
  { simplify_eq. split; [reflexivity | split; [reflexivity | right; reflexivity]]. }
  destruct (command =? CREATE).
  { destruct pending; [discriminate |].
    repeat case_match; simplify_eq;
      (split; [reflexivity | split; [reflexivity | left; reflexivity]]). }
  destruct (command =? SETTIME).
  { repeat case_match; simplify_eq;
      (split; [reflexivity | split; [reflexivity | right; reflexivity]]). }
  destruct (command =? GETTIME).
  { repeat case_match; simplify_eq;
      (split; [reflexivity | split; [reflexivity | right; reflexivity]]). }
  destruct (command =? ACK).
  { destruct pending; cbn in Hstep; simplify_eq;
      (split; [reflexivity
              | split; [reflexivity | (left; reflexivity) || (right; reflexivity)]]). }
  simplify_eq. split; [reflexivity | split; [reflexivity | right; reflexivity]].
Qed.

(** A ReadyInput callback sends the owner at most one message; it either
    is for the handle's descriptor, which it deselects while it sets
    [ack_pending], or changes nothing and sends no timeout. *)
Lemma step_ready_input_gate (h h' : emulator) (event : ErlDrvEvent)
    (k : answers) (fx : list effect) :
  step h (ReadyInput event) k = Some (h', fx) ->
  (length (filter is_output fx) <= 1)%nat
  /\ ((event = fd (drv h)
       /\ h' = mk_emulator (mk_etimerfd (port (drv h)) (fd (drv h)) true)
                           (selected h ∖ {[fd (drv h)]}))
      \/ (h' = h /\ filter is_timeout fx = [])).
Proof.
  intros Hstep. destruct h as [[p fd0 pending] sel].
  unfold_driver. cbn [hdl log port fd ack_pending drv selected] in *.
  destruct (Z.eqb_spec event fd0) as [-> | Hne].
  - destruct (ans_read k) as [n count]. destruct (n =? 8); simplify_eq.
    + split; [vm_compute; lia | left; split; reflexivity].
    + split; [vm_compute; lia | right; split; reflexivity].
  - simplify_eq. split; [vm_compute; lia | right; split; reflexivity].
Qed.

Lemma step_gate (h h' : emulator) (c : callback) (k : answers) (fx : list effect) :
  gate_inv h ->
  deliverable h c = true ->
  create_allowed h c = true ->
  step h c k = Some (h', fx) ->
  gate_inv h'
  /\ (length (filter is_output fx) <= 1)%nat
  /\ (ack_pending (drv h) = true -> filter is_timeout fx = []).
Proof.
  intros Hinv Hdel Hcr Hstep. destruct c as [command buf | event].
  - destruct (step_control_gate _ _ _ _ _ _ Hcr Hstep) as (Hout & Htime & Hst).
    split; [| split].
    + destruct Hst as [Hack | ->]; [| exact Hinv].
      intros Hp. congruence.
    + rewrite Hout. simpl. lia.
    + intros _. exact Htime.
  - destruct (step_ready_input_gate _ _ _ _ _ Hstep) as (Hout & Hst).
    split; [| split]; [| exact Hout |].
    + destruct Hst as [[-> ->] | [-> _]]; [| exact Hinv].
      intros _. simpl. set_solver.
    + intros Hp. destruct Hst as [[-> _] | [_ Htime]]; [| exact Htime].
      simpl in Hdel. apply bool_decide_eq_true in Hdel.
      exfalso. exact (Hinv Hp Hdel).
Qed.

Lemma ack_gate_invariant (tr : list (callback * answers)) :
  forall h : emulator,
    gate_inv h ->
    admissible h tr = true ->
    create_when_unacked h tr = true ->
    ack_gate h tr = true.
Proof.
  induction tr as [| [c k] tr IH]; intros h Hinv Hadm Hcr; [reflexivity |].
  cbn [admissible create_when_unacked ack_gate] in *.
  apply andb_true_iff in Hadm as [Hdel Hadm].
  apply andb_true_iff in Hcr as [Hc Hcr].
  destruct (step h c k) as [[h' fx] |] eqn:Hstep; [| reflexivity].
  destruct (step_gate h h' c k fx Hinv Hdel Hc Hstep) as (Hinv' & Hout & Htime).
  rewrite (IH h' Hinv' Hadm Hcr), andb_true_r.
  apply andb_true_iff. split.
  - apply Nat.leb_le. exact Hout.
  - destruct (ack_pending (drv h)); [| reflexivity].
    apply bool_decide_eq_true. apply Htime. reflexivity.
Qed.

(** C1, as amended. On every run the emulator can produce from [start] in
    which no Create command arrives while [ack_pending] is set, every
    callback sends the owner at most one message and no callback that
    starts with [ack_pending] set sends a timeout, whatever the counter
    reads. *)
Theorem ack_gate_without_recreate (p : ErlDrvPort) (tr : list (callback * answers)) :
  admissible (boot p) tr = true ->
  create_when_unacked (boot p) tr = true ->
  ack_gate (boot p) tr = true.
Proof.
  apply ack_gate_invariant. intros Hp. discriminate Hp.
Qed.

Lemma ack_gate_without_recreate_witness :
  admissible (boot 1) acked_run = true /\
  create_when_unacked (boot 1) acked_run = true /\
  ack_gate (boot 1) acked_run = true.
Proof.
  assert (admissible (boot 1) acked_run = true) as Ha by (vm_compute; reflexivity).
  assert (create_when_unacked (boot 1) acked_run = true) as Hc
    by (vm_compute; reflexivity).
  split; [exact Ha |]. split; [exact Hc |].
  exact (ack_gate_without_recreate 1 acked_run Ha Hc).
Defined.

(** C1, as stated, fails: the emulator can produce [recreate_run], and at
    its last callback the handle has [ack_pending] set and the driver
    sends a second timeout. *)
Lemma ack_gate_broken_by_second_create :
  admissible (boot 1) recreate_run = true
  /\ ack_gate (boot 1) recreate_run = false
  /\ run (boot 1) recreate_prefix =
       Some (mk_emulator (mk_etimerfd 1 6 true) ({[6]} ∪ (({[5]} ∪ ∅) ∖ {[5]})))
  /\ (snd <$> step (mk_emulator (mk_etimerfd 1 6 true) ({[6]} ∪ (({[5]} ∪ ∅) ∖ {[5]})))
                   (ReadyInput 6) (answers_fd 6)) =
       Some [sys_read 6 8;
             driver_select 1 6 (Z.lor ERL_DRV_READ ERL_DRV_USE) 0;
             driver_output 1 [EI_TERM (fmt_timeout 1)]].
Proof.
  split; [vm_compute; reflexivity |].
  split; [vm_compute; reflexivity |].
  split; reflexivity.
Qed.

(** * Further properties of the driver *)

Lemma control_outcomes (k : answers) (command : Z) (buf : in_x_buff)
    (data data' : etimerfd) (r : ErlDrvSSizeT) (x : option ei_x_buff)
    (fx : list effect) :
  exec (control k command buf) data = Some (r, x, data', fx) ->
  control_outcome k command data r x data' fx.
Proof.
  intros H. destruct data as [p fd0 pending]. unfold_driver.
  cbn [hdl log port fd ack_pending] in H.
  destruct (Z.eqb_spec (ans_x_new k) 0) as [Hnew | Hnew]; cbn [negb] in H.
  2: { simplify_eq. by apply co_no_memory. }
  destruct (Z.eqb_spec command CREATE) as [-> | _].
  { destruct (ei_x_decode_atom buf) as [atom |].
    2: { simplify_eq. apply co_silent; auto. }
    destruct (String.eqb atom "clock_monotonic").
    - cbn in H. destruct (Z.ltb_spec (ans_timerfd_create k) 0); simplify_eq.
      + exact (co_create_failed k CREATE (mk_etimerfd p fd0 pending) CLOCK_MONOTONIC
               Hnew eq_refl (or_introl eq_refl) ltac:(assumption)).
      + exact (co_created k CREATE (mk_etimerfd p fd0 pending) CLOCK_MONOTONIC
               Hnew eq_refl (or_introl eq_refl) ltac:(assumption)).
    - destruct (String.eqb atom "clock_realtime").
      + cbn in H. destruct (Z.ltb_spec (ans_timerfd_create k) 0); simplify_eq.
        * exact (co_create_failed k CREATE (mk_etimerfd p fd0 pending) CLOCK_REALTIME
                 Hnew eq_refl (or_intror eq_refl) ltac:(assumption)).
        * exact (co_created k CREATE (mk_etimerfd p fd0 pending) CLOCK_REALTIME
                 Hnew eq_refl (or_intror eq_refl) ltac:(assumption)).
      + cbn in H. simplify_eq. by apply co_crash. }
  destruct (Z.eqb_spec command SETTIME) as [-> | _].
  { unfold ei_decode_term in H. destruct buf as [term |].
    2: { discriminate H. }
    destruct (erl_match_settime term) as [[[[[A B] C] D] E] |].
    2: { simplify_eq. apply co_silent; auto. }
    destruct (ERL_INT_UVALUE A); [| discriminate].
    destruct (ERL_INT_UVALUE B); [| discriminate].
    destruct (ERL_INT_UVALUE C); [| discriminate].
    destruct (ERL_INT_UVALUE D); [| discriminate].
    destruct (ERL_ATOM_PTR E); [| discriminate].
    cbn [hdl log port fd ack_pending app] in H.
    destruct (ans_timerfd_settime k) as [rc old_value] eqn:Hk.
    pose proof (co_settime k SETTIME (mk_etimerfd p fd0 pending)) as Hco.
    rewrite Hk in Hco. cbn [fst snd] in Hco.
    destruct (rc =? 0); simplify_eq; exact (Hco _ _ Hnew eq_refl). }
  destruct (Z.eqb_spec command GETTIME) as [-> | _].
  { cbn [hdl log port fd ack_pending app] in H.
    destruct (ans_timerfd_gettime k) as [rc curr_value] eqn:Hk.
    pose proof (co_gettime k GETTIME (mk_etimerfd p fd0 pending)) as Hco.
    rewrite Hk in Hco. cbn [fst snd] in Hco.
    destruct (rc =? 0); simplify_eq; exact (Hco Hnew eq_refl). }
  destruct (Z.eqb_spec command ACK) as [-> | _].
  { destruct pending; cbn in H; simplify_eq.
    - exact (co_ack k ACK (mk_etimerfd p fd0 true) Hnew eq_refl eq_refl).
    - exact (co_ack_not_pending k ACK (mk_etimerfd p fd0 false) Hnew eq_refl eq_refl). }
  simplify_eq. by apply co_crash.
Qed.

Lemma ready_outcomes (k : answers) (event : ErlDrvEvent)
    (data data' : etimerfd) (u : unit) (fx : list effect) :
  exec (ready_input k event) data = Some (u, data', fx) ->
  ready_outcome k event data data' fx.
Proof.
  intros H. destruct data as [p fd0 pending]. unfold_driver.
  cbn [hdl log port fd ack_pending] in H.
  destruct (Z.eqb_spec event fd0) as [-> | Hne].
  - cbn in H. pose proof (ro_short_read k fd0 (mk_etimerfd p fd0 pending)) as Hs.
    pose proof (ro_timeout k fd0 (mk_etimerfd p fd0 pending)) as Ht.
    destruct (ans_read k) as [n count]. cbn [fst snd] in *.
    destruct (Z.eqb_spec n 8); simplify_eq.
    + exact (Ht eq_refl eq_refl).
    + exact (Hs eq_refl ltac:(assumption)).
  - simplify_eq. apply ro_stale. exact Hne.
Qed.

Lemma step_control_exec (h h' : emulator) (command : Z) (buf : in_x_buff)
    (k : answers) (fx : list effect) :
  step h (Control command buf) k = Some (h', fx) ->
  exists r x,
    exec (control k command buf) (drv h) = Some (r, x, drv h', fx)
    /\ selected h' = select_effects (selected h) fx.
Proof.
  unfold step. intros H.
  destruct (exec (control k command buf) (drv h)) as [[[[r x] d] f] |];
    simplify_eq. eauto.
Qed.

Lemma step_ready_exec (h h' : emulator) (event : ErlDrvEvent)
    (k : answers) (fx : list effect) :
  step h (ReadyInput event) k = Some (h', fx) ->
  ready_outcome k event (drv h) (drv h') fx
  /\ selected h' = select_effects (selected h) fx.
Proof.
  unfold step. intros H.
  destruct (exec (ready_input k event) (drv h)) as [[[u d] f] |] eqn:He;
    simplify_eq. split; [| reflexivity]. cbn. eapply ready_outcomes, He.
Qed.

Lemma step_never_releases (h h' : emulator) (c : callback) (k : answers)
    (fx : list effect) :
  step h c k = Some (h', fx) -> filter is_release fx = [].
Proof.
  intros H. destruct c as [command buf | event].
  - apply step_control_exec in H as (r & x & He & _).
    apply control_outcomes in He. inversion He; reflexivity.
  - apply step_ready_exec in H as [Hr _]. inversion Hr; reflexivity.
Qed.

Lemma step_on_port (h h' : emulator) (c : callback) (k : answers)
    (fx : list effect) :
  step h c k = Some (h', fx) ->
  port (drv h') = port (drv h) /\ Forall (on_port (port (drv h))) fx.
Proof.
  intros H. destruct h as [d sel], h' as [d' sel'].
  destruct c as [command buf | event].
  - apply step_control_exec in H as (r & x & He & _).
    apply control_outcomes in He. cbn [drv] in *.
    inversion He; subst; (split; [reflexivity |]);
      repeat (match goal with |- Forall _ _ => constructor end);
      unfold on_port; cbn; auto.
  - apply step_ready_exec in H as [Hr _]. cbn [drv] in *.
    inversion Hr; subst; (split; [reflexivity |]);
      repeat (match goal with |- Forall _ _ => constructor end);
      unfold on_port; cbn; auto.
Qed.

(** ** What single commands do *)

(** X1. A call of [control] that returns -1 has done nothing: the reply
    buffer holds no term, the handle is as it was, and no system call or
    emulator call was made. *)
Theorem control_crash_is_clean (k : answers) (command : Z) (buf : in_x_buff)
    (data data' : etimerfd) (x : option ei_x_buff) (fx : list effect) :
  exec (control k command buf) data = Some (RET_NEG1, x, data', fx) ->
  x = Some [] /\ data' = data /\ fx = [].
Proof.
  intros H. apply control_outcomes in H. inversion H; auto.
Qed.

Lemma control_crash_is_clean_witness :
  exec (control answers_ok CREATE (Some (ERL_ATOM "notaclockid")))
       (mk_etimerfd 1 5 true) =
    Some (RET_NEG1, Some [], mk_etimerfd 1 5 true, [])
  /\ (Some ([] : ei_x_buff) = Some [] /\ mk_etimerfd 1 5 true = mk_etimerfd 1 5 true
      /\ ([] : list effect) = []).
Proof.
  split; [reflexivity |].
  exact (control_crash_is_clean answers_ok CREATE (Some (ERL_ATOM "notaclockid"))
           (mk_etimerfd 1 5 true) (mk_etimerfd 1 5 true) (Some []) [] eq_refl).
Defined.

(** X2. A command number other than CREATE, SETTIME, GETTIME and ACK makes
    [control] return -1 with an empty reply, whatever the payload and the
    handle, and leaves the handle alone. *)
Theorem control_unknown_command (k : answers) (command : Z) (buf : in_x_buff)
    (data : etimerfd) :
  ans_x_new k = 0 ->
  command <> CREATE -> command <> SETTIME -> command <> GETTIME -> command <> ACK ->
  exec (control k command buf) data = Some (RET_NEG1, Some [], data, []).
Proof.
  intros Hnew Hc Hs Hg Ha. destruct data as [p fd0 pending]. unfold_driver.
  cbn [hdl log port fd ack_pending]. rewrite Hnew. cbn [Z.eqb negb].
  destruct (Z.eqb_spec command CREATE); [contradiction |].
  destruct (Z.eqb_spec command SETTIME); [contradiction |].
  destruct (Z.eqb_spec command GETTIME); [contradiction |].
  destruct (Z.eqb_spec command ACK); [contradiction |].
  reflexivity.
Qed.

Lemma control_unknown_command_witness :
  ans_x_new answers_ok = 0 /\ 4 <> CREATE /\ 4 <> SETTIME /\ 4 <> GETTIME /\ 4 <> ACK /\
  exec (control answers_ok 4 None) (mk_etimerfd 1 5 true) =
    Some (RET_NEG1, Some [], mk_etimerfd 1 5 true, []).
Proof.
  assert (4 <> CREATE) as Hc by (unfold CREATE; lia).
  assert (4 <> SETTIME) as Hs by (unfold SETTIME; lia).
  assert (4 <> GETTIME) as Hg by (unfold GETTIME; lia).
  assert (4 <> ACK) as Ha by (unfold ACK; lia).
  split; [reflexivity |]. split; [exact Hc |]. split; [exact Hs |].
  split; [exact Hg |]. split; [exact Ha |].
  exact (control_unknown_command answers_ok 4 None (mk_etimerfd 1 5 true)
           eq_refl Hc Hs Hg Ha).
Defined.

(** X3. When the reply buffer cannot be allocated, [control] runs no command
    at all: it reports [no_memory] with [driver_failure_atom], returns 0
    without a reply, and leaves the handle as it was (an Ack is not taken). *)
Theorem control_no_memory (k : answers) (command : Z) (buf : in_x_buff)
    (data : etimerfd) :
  ans_x_new k <> 0 ->
  exec (control k command buf) data =
    Some (RET_ZERO, None, data, [driver_failure_atom (port data) "no_memory"]).
Proof.
  intros Hnew. destruct data as [p fd0 pending]. unfold_driver.
  cbn [hdl log port fd ack_pending].
  destruct (Z.eqb_spec (ans_x_new k) 0); [contradiction | reflexivity].
Qed.

Lemma control_no_memory_witness :
  ans_x_new answers_no_memory <> 0 /\
  exec (control answers_no_memory ACK None) (mk_etimerfd 1 5 true) =
    Some (RET_ZERO, None, mk_etimerfd 1 5 true, [driver_failure_atom 1 "no_memory"]).
Proof.
  assert (ans_x_new answers_no_memory <> 0) as H by (simpl; lia).
  split; [exact H |].
  exact (control_no_memory answers_no_memory ACK None (mk_etimerfd 1 5 true) H).
Defined.

(** X4. Create with [clock_monotonic] or [clock_realtime], when
    [timerfd_create] returns a descriptor: the kernel is asked for that clock
    with [TFD_NONBLOCK | TFD_CLOEXEC], the descriptor is stored and selected
    for reading, [ack_pending] keeps its value, and the reply is [ok]. *)
Theorem create_timer_success (k : answers) (data : etimerfd) :
  ans_x_new k = 0 ->
  0 <= ans_timerfd_create k ->
  exec (control k CREATE (Some (ERL_ATOM "clock_monotonic"))) data =
    Some (RET_INDEX, Some [EI_ATOM "ok"],
          mk_etimerfd (port data) (ans_timerfd_create k) (ack_pending data),
          [sys_timerfd_create CLOCK_MONOTONIC (Z.lor TFD_NONBLOCK TFD_CLOEXEC);
           driver_select (port data) (ans_timerfd_create k)
             (Z.lor ERL_DRV_READ ERL_DRV_USE) 1])
  /\ exec (control k CREATE (Some (ERL_ATOM "clock_realtime"))) data =
       Some (RET_INDEX, Some [EI_ATOM "ok"],
             mk_etimerfd (port data) (ans_timerfd_create k) (ack_pending data),
             [sys_timerfd_create CLOCK_REALTIME (Z.lor TFD_NONBLOCK TFD_CLOEXEC);
              driver_select (port data) (ans_timerfd_create k)
                (Z.lor ERL_DRV_READ ERL_DRV_USE) 1]).
Proof.
  intros Hnew Hfd. destruct data as [p fd0 pending].
  split; unfold_driver; cbn [hdl log port fd ack_pending ei_x_decode_atom];
    rewrite Hnew; cbn;
    (destruct (Z.ltb_spec (ans_timerfd_create k) 0); [lia | reflexivity]).
Qed.

Lemma create_timer_success_witness :
  ans_x_new answers_ok = 0 /\ 0 <= ans_timerfd_create answers_ok /\
  exec (control answers_ok CREATE (Some (ERL_ATOM "clock_realtime")))
       (mk_etimerfd 1 (-1) false) =
    Some (RET_INDEX, Some [EI_ATOM "ok"], mk_etimerfd 1 5 false,
          [sys_timerfd_create CLOCK_REALTIME (Z.lor TFD_NONBLOCK TFD_CLOEXEC);
           driver_select 1 5 (Z.lor ERL_DRV_READ ERL_DRV_USE) 1]).
Proof.
  assert (0 <= ans_timerfd_create answers_ok) as H by (simpl; lia).
  split; [reflexivity |]. split; [exact H |].
  exact (proj2 (create_timer_success answers_ok (mk_etimerfd 1 (-1) false) eq_refl H)).
Defined.

(** X5. Create when [timerfd_create] fails: the reply is
    [{error,"timerfd_create failed"}], nothing is selected, and the handle
    holds the negative return value; a second Create on that handle then
    behaves exactly as it would have on the original handle. *)
Theorem create_timer_failure_then_retry (k k' : answers) (data : etimerfd)
    (atom : string) :
  ans_x_new k = 0 -> ans_x_new k' = 0 ->
  atom = "clock_monotonic" \/ atom = "clock_realtime" ->
  ans_timerfd_create k < 0 ->
  exec (control k CREATE (Some (ERL_ATOM atom))) data =
    Some (RET_INDEX,
          Some [EI_TUPLE_HEADER 2; EI_ATOM "error"; EI_STRING "timerfd_create failed"],
          mk_etimerfd (port data) (ans_timerfd_create k) (ack_pending data),
          [sys_timerfd_create (if decide (atom = "clock_monotonic")
                               then CLOCK_MONOTONIC else CLOCK_REALTIME)
             (Z.lor TFD_NONBLOCK TFD_CLOEXEC)])
  /\ exec (control k' CREATE (Some (ERL_ATOM atom)))
          (mk_etimerfd (port data) (ans_timerfd_create k) (ack_pending data)) =
     exec (control k' CREATE (Some (ERL_ATOM atom))) data.
Proof.
  intros Hnew Hnew' Hatom Hfd.
  destruct data as [p fd0 pending]. split.
  - destruct Hatom as [-> | ->]; unfold_driver;
      cbn [hdl log port fd ack_pending ei_x_decode_atom];
      rewrite Hnew; cbn;
      (destruct (Z.ltb_spec (ans_timerfd_create k) 0); [reflexivity | lia]).
  - destruct Hatom as [-> | ->]; unfold_driver;
      cbn [hdl log port fd ack_pending ei_x_decode_atom];
      rewrite Hnew'; reflexivity.
Qed.

Lemma create_timer_failure_then_retry_witness :
  ans_x_new answers_create_fails = 0 /\ ans_x_new answers_ok = 0 /\
  ans_timerfd_create answers_create_fails < 0 /\
  exec (control answers_ok CREATE (Some (ERL_ATOM "clock_monotonic")))
       (mk_etimerfd 1 (-1) false) =
    Some (RET_INDEX, Some [EI_ATOM "ok"], mk_etimerfd 1 5 false,
          [sys_timerfd_create CLOCK_MONOTONIC (Z.lor TFD_NONBLOCK TFD_CLOEXEC);
           driver_select 1 5 (Z.lor ERL_DRV_READ ERL_DRV_USE) 1]).
Proof.
  assert (ans_timerfd_create answers_create_fails < 0) as H by (simpl; lia).
  split; [reflexivity |]. split; [reflexivity |]. split; [exact H |].
  exact (proj2 (create_timer_failure_then_retry answers_create_fails answers_ok
                  (mk_etimerfd 1 7 false) "clock_monotonic"
                  eq_refl eq_refl (or_introl eq_refl) H)).
Defined.

(** X6. SetTime with a term that does not match [{{{A,B},{C,D}},E}] never
    reaches the kernel: [control] returns normally with a reply buffer that
    holds no term, and the handle stays as it was. *)
Theorem settime_malformed_payload (k : answers) (data : etimerfd) (term : ETERM) :
  ans_x_new k = 0 ->
  erl_match_settime term = None ->
  exec (control k SETTIME (Some term)) data = Some (RET_INDEX, Some [], data, []).
Proof.
  intros Hnew Hm. destruct data as [p fd0 pending].
  unfold_driver. unfold ei_decode_term.
  cbn [hdl log port fd ack_pending]. rewrite Hnew. cbn [Z.eqb negb].
  replace (SETTIME =? CREATE) with false by reflexivity.
  replace (SETTIME =? SETTIME) with true by reflexivity.
  rewrite Hm. reflexivity.
Qed.

Lemma settime_malformed_payload_witness :
  ans_x_new answers_ok = 0 /\
  erl_match_settime (ERL_TUPLE [ERL_INTEGER 0; ERL_INTEGER 500000]) = None /\
  exec (control answers_ok SETTIME
          (Some (ERL_TUPLE [ERL_INTEGER 0; ERL_INTEGER 500000])))
       (mk_etimerfd 1 5 false) =
    Some (RET_INDEX, Some [], mk_etimerfd 1 5 false, []).
Proof.
  split; [reflexivity |]. split; [reflexivity |].
  exact (settime_malformed_payload answers_ok (mk_etimerfd 1 5 false)
           (ERL_TUPLE [ERL_INTEGER 0; ERL_INTEGER 500000]) eq_refl eq_refl).
Defined.



Lemma wrap_uint_mod (a : Z) : fits_int_term a -> a mod 2 ^ 32 = wrap_uint a.
Proof.
  intros [Hlo Hhi]. unfold wrap_uint.
  destruct (Z.ltb_spec a 0) as [Hneg | Hpos].
  - symmetry. apply (Z.mod_unique_pos a (2 ^ 32) (-1)); lia.
  - apply Z.mod_small. lia.
Qed.

(** X8. SetTime does not reject negative fields: each field is read as an
    [unsigned int], so a negative field [a] arms the timer with [a + 2^32]
    and a field in [0, 2^32) is passed as it is, whatever the kernel then
    answers. *)
Theorem settime_fields_wrap (k : answers) (data : etimerfd)
    (a b c d : Z) (e : string) :
  ans_x_new k = 0 ->
  fits_int_term a -> fits_int_term b -> fits_int_term c -> fits_int_term d ->
  snd <$> exec (control k SETTIME (Some (settime_payload a b c d e))) data =
    Some [sys_timerfd_settime (fd data)
            (if decide (e = "true") then TFD_TIMER_ABSTIME else 0)
            (mk_itimerspec (mk_timespec (wrap_uint a) (wrap_uint b))
                           (mk_timespec (wrap_uint c) (wrap_uint d)))].
Proof.
  intros Hnew Ha Hb Hc Hd. destruct data as [p fd0 pending].
  unfold_driver. unfold settime_payload, ei_decode_term, erl_match_settime.
  cbn [hdl log port fd ack_pending]. rewrite Hnew. cbn [Z.eqb negb].
  replace (SETTIME =? CREATE) with false by reflexivity.
  replace (SETTIME =? SETTIME) with true by reflexivity.
  rewrite !ERL_INT_UVALUE_fits by assumption.
  rewrite !wrap_uint_mod by assumption.
  cbn [ERL_ATOM_PTR hdl log port fd ack_pending app].
  destruct (ans_timerfd_settime k) as [rc old_value].
  destruct (String.eqb_spec e "true") as [-> | Hne].
  - rewrite decide_True by reflexivity. destruct (rc =? 0); reflexivity.
  - rewrite decide_False by assumption. destruct (rc =? 0); reflexivity.
Qed.

Lemma settime_fields_wrap_witness :
  ans_x_new answers_ok = 0 /\ fits_int_term (-1) /\ fits_int_term 0 /\
  snd <$> exec (control answers_ok SETTIME (Some (settime_payload 0 0 (-1) 0 "false")))
            (mk_etimerfd 1 5 false) =
    Some [sys_timerfd_settime 5 0
            (mk_itimerspec (mk_timespec 0 0) (mk_timespec 4294967295 0))].
Proof.
  assert (fits_int_term (-1)) as Hm by (unfold fits_int_term; lia).
  assert (fits_int_term 0) as H0 by (unfold fits_int_term; lia).
  split; [reflexivity |]. split; [exact Hm |]. split; [exact H0 |].
  exact (settime_fields_wrap answers_ok (mk_etimerfd 1 5 false) 0 0 (-1) 0 "false"
           eq_refl H0 H0 Hm H0).
Defined.

Lemma read_selects_read : (Z.land ERL_DRV_READ ERL_DRV_READ =? 0) = false.
Proof. reflexivity. Qed.

(** ** How callbacks compose *)

Lemma read_use_selects_read :
  (Z.land (Z.lor ERL_DRV_READ ERL_DRV_USE) ERL_DRV_READ =? 0) = false.
Proof. reflexivity. Qed.


(** X9. NOTIFIED and back: on an armed handle whose descriptor is selected,
    a readiness event with a full read followed by an Ack leaves the port
    exactly as it was (same handle, same read set). *)
Theorem ready_then_ack_round_trip (k k' : answers) (h : emulator)
    (count : Z) (buf : in_x_buff) :
  ack_pending (drv h) = false ->
  fd (drv h) ∈ selected h ->
  ans_read k = (8, count) ->
  ans_x_new k' = 0 ->
  run h [(ReadyInput (FD2EVENT (fd (drv h))), k); (Control ACK buf, k')] = Some h.
Proof.
  intros Hp Hsel Hread Hnew. destruct h as [[p fd0 pending] sel].
  cbn [drv selected fd ack_pending] in *. subst pending.
  unfold run. unfold_driver.
  cbn [hdl log port fd ack_pending drv selected].
  rewrite Z.eqb_refl, Hread. cbn. rewrite Hnew. cbn.
  rewrite !read_use_selects_read. do 2 f_equal.
  symmetry. apply union_difference_singleton_L. exact Hsel.
Qed.

Lemma ready_then_ack_round_trip_witness :
  ack_pending (mk_etimerfd 1 5 false) = false /\
  5 ∈ ({[5]} : gset Z) /\
  ans_read answers_ok = (8, 1) /\ ans_x_new answers_ok = 0 /\
  run (mk_emulator (mk_etimerfd 1 5 false) {[5]})
      [(ReadyInput 5, answers_ok); (Control ACK None, answers_ok)] =
    Some (mk_emulator (mk_etimerfd 1 5 false) {[5]}).
Proof.
  assert (5 ∈ ({[5]} : gset Z)) as H by (apply elem_of_singleton; reflexivity).
  split; [reflexivity |]. split; [exact H |]. split; [reflexivity |].
  split; [reflexivity |].
  exact (ready_then_ack_round_trip answers_ok answers_ok
           (mk_emulator (mk_etimerfd 1 5 false) {[5]}) 1 None
           eq_refl H eq_refl eq_refl).
Defined.

(** X10. Ack twice: after an Ack that was answered [ok], a second Ack is
    answered [{error,"ack not pending"}] and changes nothing. *)
Theorem second_ack_rejected (k k' : answers) (data : etimerfd) (buf buf' : in_x_buff) :
  ans_x_new k = 0 -> ans_x_new k' = 0 ->
  ack_pending data = true ->
  exists acked_data fx,
    exec (control k ACK buf) data = Some (RET_INDEX, Some [EI_ATOM "ok"], acked_data, fx)
    /\ exec (control k' ACK buf') acked_data =
         Some (RET_INDEX,
               Some [EI_TUPLE_HEADER 2; EI_ATOM "error"; EI_STRING "ack not pending"],
               acked_data, []).
Proof.
  intros Hnew Hnew' Hp. destruct data as [p fd0 pending].
  cbn [ack_pending] in Hp. subst pending.
  exists (mk_etimerfd p fd0 false). eexists. unfold_driver.
  cbn [hdl log port fd ack_pending]. rewrite Hnew, Hnew'. cbn.
  split; reflexivity.
Qed.

Lemma second_ack_rejected_witness :
  ans_x_new answers_ok = 0 /\ ack_pending (mk_etimerfd 1 5 true) = true /\
  exists acked_data fx,
    exec (control answers_ok ACK None) (mk_etimerfd 1 5 true) =
      Some (RET_INDEX, Some [EI_ATOM "ok"], acked_data, fx)
    /\ exec (control answers_ok ACK None) acked_data =
         Some (RET_INDEX,
               Some [EI_TUPLE_HEADER 2; EI_ATOM "error"; EI_STRING "ack not pending"],
               acked_data, []).
Proof.
  split; [reflexivity |]. split; [reflexivity |].
  exact (second_ack_rejected answers_ok answers_ok (mk_etimerfd 1 5 true) None None
           eq_refl eq_refl eq_refl).
Defined.

(** ** What holds along every run *)

(** X11. No run of [control] and [ready_input] callbacks ever calls [close]
    or [driver_free]: descriptors are released by [stop] only. *)
Theorem callbacks_never_release (h : emulator) (tr : list (callback * answers)) :
  filter is_release (run_effects h tr) = [].
Proof.
  revert h. induction tr as [| [c k] tr IH]; intros h; [reflexivity |].
  cbn [run_effects].
  destruct (step h c k) as [[h' fx] |] eqn:Hstep; [| reflexivity].
  rewrite filter_app, (step_never_releases _ _ _ _ _ Hstep), IH. reflexivity.
Qed.

(** X12. Along every run the handle keeps the port [start] gave it, and
    every [driver_select], [driver_output] and [driver_failure_atom] is made
    on that port. *)
Theorem port_is_fixed (h h' : emulator) (tr : list (callback * answers)) :
  run h tr = Some h' ->
  port (drv h') = port (drv h)
  /\ Forall (on_port (port (drv h))) (run_effects h tr).
Proof.
  revert h. induction tr as [| [c k] tr IH]; intros h Hrun.
  - cbn in Hrun. simplify_eq. split; [reflexivity | constructor].
  - cbn [run run_effects] in *.
    destruct (step h c k) as [[h1 fx] |] eqn:Hstep; [| discriminate].
    destruct (step_on_port _ _ _ _ _ Hstep) as [Hp Hfx].
    destruct (IH h1 Hrun) as [Hp' Hfx'].
    split; [congruence |].
    apply Forall_app. split; [exact Hfx |]. rewrite <- Hp. exact Hfx'.
Qed.

Lemma port_is_fixed_witness :
  run (boot 1) recreate_run = Some (mk_emulator (mk_etimerfd 1 6 true) (({[6]} ∪ (({[5]} ∪ ∅) ∖ {[5]})) ∖ {[6]}))
  /\ port (mk_etimerfd 1 6 true) = port (drv (boot 1))
  /\ Forall (on_port (port (drv (boot 1)))) (run_effects (boot 1) recreate_run).
Proof.
  assert (run (boot 1) recreate_run =
          Some (mk_emulator (mk_etimerfd 1 6 true)
                  (({[6]} ∪ (({[5]} ∪ ∅) ∖ {[5]})) ∖ {[6]}))) as H by reflexivity.
  split; [exact H |].
  exact (port_is_fixed (boot 1) _ recreate_run H).
Defined.





Lemma step_balance (h h' : emulator) (c : callback) (k : answers)
    (fx : list effect) :
  gate_inv h ->
  deliverable h c = true ->
  step h c k = Some (h', fx) ->
  (length (filter is_timeout fx) + outstanding h
   = (if acked h c k then 1 else 0) + outstanding h')%nat.
Proof.
  intros Hinv Hdel Hstep. destruct h as [d sel], h' as [d' sel'].
  unfold outstanding, gate_inv in *. cbn [drv selected] in *.
  destruct c as [command buf | event].
  - apply step_control_exec in Hstep as (r & x & He & Hsel).
    cbn [drv selected acked] in *. rewrite He.
    apply control_outcomes in He.
    inversion He; subst; cbn [ack_pending];
      try rewrite andb_false_r; try reflexivity.
    match goal with Hp : ack_pending _ = true |- _ => rewrite Hp end.
    reflexivity.
  - apply step_ready_exec in Hstep as [Hr Hsel]. cbn [drv selected acked] in *.
    inversion Hr; subst; cbn [ack_pending]; try reflexivity.
    cbn [deliverable selected] in Hdel. apply bool_decide_eq_true in Hdel.
    unfold EVENT2FD in *. subst event.
    destruct (ack_pending d) eqn:Hp; [| reflexivity].
    exfalso. exact (Hinv eq_refl Hdel).
Qed.

Lemma run_balance (tr : list (callback * answers)) :
  forall h : emulator,
    gate_inv h ->
    admissible h tr = true ->
    create_when_unacked h tr = true ->
    exists h',
      run h tr = Some h'
      /\ (timeouts_sent h tr + outstanding h = acks_ok h tr + outstanding h')%nat.
Proof.
  induction tr as [| [c k] tr IH]; intros h Hinv Hadm Hcr.
  - exists h. split; reflexivity.
  - unfold timeouts_sent in *.
    cbn [admissible create_when_unacked run run_effects acks_ok] in *.
    apply andb_true_iff in Hadm as [Hdel Hadm].
    apply andb_true_iff in Hcr as [Hc Hcr].
    destruct (step h c k) as [[h1 fx] |] eqn:Hstep; [| discriminate].
    destruct (step_gate h h1 c k fx Hinv Hdel Hc Hstep) as (Hinv1 & _ & _).
    destruct (IH h1 Hinv1 Hadm Hcr) as (h' & Hrun & Hbal).
    exists h'. split; [exact Hrun |].
    pose proof (step_balance h h1 c k fx Hinv Hdel Hstep) as Hs.
    rewrite filter_app, length_app. lia.
Qed.

(** X14. On every such run the number of timeout notifications sent equals
    the number of Acks answered [ok], plus one if [ack_pending] is set at the
    end: at most one notification is ever unacknowledged. *)
Theorem one_outstanding_timeout (p : ErlDrvPort) (tr : list (callback * answers)) :
  admissible (boot p) tr = true ->
  create_when_unacked (boot p) tr = true ->
  exists h,
    run (boot p) tr = Some h
    /\ timeouts_sent (boot p) tr
       = (acks_ok (boot p) tr + (if ack_pending (drv h) then 1 else 0))%nat.
Proof.
  intros Hadm Hcr.
  destruct (run_balance tr (boot p)) as (h & Hrun & Hbal); auto.
  - intros Hp. discriminate Hp.
  - exists h. split; [exact Hrun |].
    unfold outstanding in Hbal. cbn [boot drv ack_pending] in Hbal. lia.
Qed.

Lemma one_outstanding_timeout_witness :
  admissible (boot 1) acked_run = true /\
  create_when_unacked (boot 1) acked_run = true /\
  exists h,
    run (boot 1) acked_run = Some h
    /\ timeouts_sent (boot 1) acked_run
       = (acks_ok (boot 1%Z) acked_run + (if ack_pending (drv h) then 1 else 0))%nat.
Proof.
  assert (admissible (boot 1) acked_run = true) as Ha by (vm_compute; reflexivity).
  assert (create_when_unacked (boot 1) acked_run = true) as Hc
    by (vm_compute; reflexivity).
  split; [exact Ha |]. split; [exact Hc |].
  exact (one_outstanding_timeout 1 acked_run Ha Hc).
Defined.

(** X15. Create on a handle that already holds a selected descriptor: the
    new descriptor replaces the old one in the handle, the old one is neither
    closed nor deselected, and a readiness event for it is from then on
    ignored without a read. *)
Theorem recreate_leaks_descriptor (k k' : answers) (h : emulator) (atom : string) :
  ans_x_new k = 0 ->
  atom = "clock_monotonic" \/ atom = "clock_realtime" ->
  0 <= ans_timerfd_create k ->
  ans_timerfd_create k <> fd (drv h) ->
  fd (drv h) ∈ selected h ->
  exists h' fx,
    step h (Control CREATE (Some (ERL_ATOM atom))) k = Some (h', fx)
    /\ fd (drv h') = ans_timerfd_create k
    /\ fd (drv h) ∈ selected h'
    /\ filter is_release fx = []
    /\ step h' (ReadyInput (FD2EVENT (fd (drv h)))) k' = Some (h', []).
Proof.
  intros Hnew Hatom Hfd Hne Hsel. destruct h as [[p fd0 pending] sel].
  cbn [drv selected fd] in *.
  destruct Hatom as [-> | ->];
    (exists (mk_emulator (mk_etimerfd p (ans_timerfd_create k) pending)
               ({[ans_timerfd_create k]} ∪ sel)); eexists;
     split; [| split; [reflexivity | split; [| split]]];
     [ unfold_driver;
       cbn [hdl log port fd ack_pending drv selected ei_x_decode_atom];
       rewrite Hnew; cbn;
       (destruct (Z.ltb_spec (ans_timerfd_create k) 0); [lia |]);
       cbn; rewrite ?read_use_selects_read; reflexivity
     | cbn [selected]; apply elem_of_union; right; exact Hsel
     | reflexivity
     | unfold_driver; cbn [hdl log port fd ack_pending drv selected];
       destruct (Z.eqb_spec fd0 (ans_timerfd_create k));
       [congruence | reflexivity] ]).
Qed.

Lemma recreate_leaks_descriptor_witness :
  ans_x_new (answers_fd 6) = 0 /\
  0 <= ans_timerfd_create (answers_fd 6) /\
  ans_timerfd_create (answers_fd 6) <> 5 /\
  5 ∈ ({[5]} : gset Z) /\
  exists h' fx,
    step (mk_emulator (mk_etimerfd 1 5 false) {[5]}) create_monotonic (answers_fd 6)
      = Some (h', fx)
    /\ fd (drv h') = 6
    /\ 5 ∈ selected h'
    /\ filter is_release fx = []
    /\ step h' (ReadyInput 5) answers_ok = Some (h', []).
Proof.
  assert (0 <= ans_timerfd_create (answers_fd 6)) as H0 by (simpl; lia).
  assert (ans_timerfd_create (answers_fd 6) <> 5) as H1 by (simpl; lia).
  assert (5 ∈ ({[5]} : gset Z)) as H2 by (apply elem_of_singleton; reflexivity).
  split; [reflexivity |]. split; [exact H0 |]. split; [exact H1 |].
  split; [exact H2 |].
  exact (recreate_leaks_descriptor (answers_fd 6) answers_ok
           (mk_emulator (mk_etimerfd 1 5 false) {[5]}) "clock_monotonic"
           eq_refl (or_introl eq_refl) H0 H1 H2).
Defined.

(** X16. Create then stop: [stop] deselects and closes exactly the descriptor
    Create obtained (when that is not 0), then frees the handle, and the read
    set is back to what it was before Create. *)
Theorem create_then_stop_releases (k : answers) (h : emulator) (atom : string) :
  ans_x_new k = 0 ->
  atom = "clock_monotonic" \/ atom = "clock_realtime" ->
  0 < ans_timerfd_create k ->
  ans_timerfd_create k ∉ selected h ->
  exists h' fx,
    step h (Control CREATE (Some (ERL_ATOM atom))) k = Some (h', fx)
    /\ exec stop (drv h') =
         Some (tt, drv h',
               [driver_select (port (drv h)) (ans_timerfd_create k) ERL_DRV_READ 0;
                sys_close (ans_timerfd_create k); driver_free])
    /\ select_effects (selected h')
         [driver_select (port (drv h)) (ans_timerfd_create k) ERL_DRV_READ 0;
          sys_close (ans_timerfd_create k); driver_free] = selected h.
Proof.
  intros Hnew Hatom Hfd Hfresh. destruct h as [[p fd0 pending] sel].
  cbn [drv selected fd port] in *.
  destruct Hatom as [-> | ->];
    (exists (mk_emulator (mk_etimerfd p (ans_timerfd_create k) pending)
               ({[ans_timerfd_create k]} ∪ sel)); eexists;
     split; [| split];
     [ unfold_driver;
       cbn [hdl log port fd ack_pending drv selected ei_x_decode_atom];
       rewrite Hnew; cbn;
       (destruct (Z.ltb_spec (ans_timerfd_create k) 0); [lia |]);
       cbn; rewrite ?read_use_selects_read; reflexivity
     | unfold_driver; cbn [hdl log port fd ack_pending drv selected];
       (destruct (Z.eqb_spec (ans_timerfd_create k) 0); [lia | reflexivity])
     | cbn [selected]; unfold select_effects; cbn [foldl select_effect];
       rewrite read_selects_read; cbn [Z.eqb];
       rewrite difference_union_distr_l_L, difference_diag_L, union_empty_l_L;
       apply difference_disjoint_L, disjoint_singleton_r; exact Hfresh ]).
Qed.

Lemma create_then_stop_releases_witness :
  ans_x_new answers_ok = 0 /\ 0 < ans_timerfd_create answers_ok /\
  (ans_timerfd_create answers_ok ∉ selected (boot 1)) /\
  exists h' fx,
    step (boot 1) (Control CREATE (Some (ERL_ATOM "clock_monotonic"))) answers_ok
      = Some (h', fx)
    /\ exec stop (drv h') =
         Some (tt, drv h',
               [driver_select 1 5 ERL_DRV_READ 0; sys_close 5; driver_free])
    /\ select_effects (selected h')
         [driver_select 1 5 ERL_DRV_READ 0; sys_close 5; driver_free] = ∅.
Proof.
  assert (0 < ans_timerfd_create answers_ok) as H0 by (simpl; lia).
  assert (ans_timerfd_create answers_ok ∉ selected (boot 1)) as H1
    by (apply not_elem_of_empty).
  split; [reflexivity |]. split; [exact H0 |]. split; [exact H1 |].
  exact (create_then_stop_releases answers_ok (boot 1) "clock_monotonic"
           eq_refl (or_introl eq_refl) H0 H1).
Defined.

(** ** The performance loop of the test suite *)

Lemma SpanFold_acc (l : list Z) (len sum : Z) :
  fold_left (fun acc x => let '(Len, Sum) := acc in (Len + 1, Sum + x)) l (len, sum)
  = (len + Z.of_nat (length l), sum + sum_Z l).
Proof.
  revert len sum. induction l as [| x l IH]; intros len sum; cbn [fold_left length sum_Z fold_right].
  - f_equal; lia.
  - rewrite IH. f_equal; unfold sum_Z; lia.
Qed.

Lemma SpanFold_spec (l : list Z) :
  timerfd_tests.SpanFold l = (Z.of_nat (length l), sum_Z l).
Proof.
  unfold timerfd_tests.SpanFold, timerfd_tests.lists_foldl.
  rewrite SpanFold_acc. f_equal; lia.
Qed.

Lemma perf_loop_ok_inv (mailbox : list timerfd_tests.message) :
  forall s s' : timerfd_tests.state,
    timerfd_tests.perf_loop mailbox s = timerfd_tests.ok s' ->
    0 <= timerfd_tests.count s ->
    timerfd_tests.count s' = 0
    /\ Z.of_nat (length (timerfd_tests.span_list s'))
       = Z.of_nat (length (timerfd_tests.span_list s)) + timerfd_tests.count s
    /\ sum_Z (timerfd_tests.span_list s')
       = sum_Z (timerfd_tests.span_list s)
         + (timerfd_tests.time s' - timerfd_tests.time s).
Proof.
  induction mailbox as [| m mailbox IH]; intros s s' Hrun Hcount;
    cbn [timerfd_tests.perf_loop] in Hrun;
    destruct (Z.ltb_spec 0 (timerfd_tests.count s)) as [Hpos | Hzero].
  - discriminate.
  - injection Hrun as <-. repeat split; lia.
  - destruct m as [now [expiration |] |]; try discriminate.
    apply IH in Hrun; cbn [timerfd_tests.count] in *; [| lia].
    destruct Hrun as (Hc & Hlen & Hsum).
    cbn [timerfd_tests.span_list timerfd_tests.time length sum_Z fold_right] in *.
    fold (sum_Z (timerfd_tests.span_list s)) in Hsum.
    repeat split; lia.
  - injection Hrun as <-. repeat split; lia.
Qed.

(** X17. When [perf_loop] started with [count = n], empty lists and
    [time = start] returns [{ok, State}], the fold of [perf_print_stats] over
    its spans yields [{n, time - start}]: the average printed is the elapsed
    time over the number of messages. *)
Theorem perf_average_is_elapsed_over_count (mailbox : list timerfd_tests.message)
    (Timer start n : Z) (s' : timerfd_tests.state) :
  0 <= n ->
  timerfd_tests.perf_loop mailbox (timerfd_tests.mk_state n Timer start [] [])
    = timerfd_tests.ok s' ->
  timerfd_tests.SpanFold (timerfd_tests.span_list s')
    = (n, timerfd_tests.time s' - start).
Proof.
  intros Hn Hrun. apply perf_loop_ok_inv in Hrun; [| exact Hn].
  destruct Hrun as (_ & Hlen & Hsum).
  cbn [timerfd_tests.span_list timerfd_tests.time timerfd_tests.count length sum_Z fold_right] in *.
  rewrite SpanFold_spec. f_equal; lia.
Qed.

Lemma perf_average_is_elapsed_over_count_witness :
  0 <= 3 /\
  timerfd_tests.perf_loop perf_mailbox (timerfd_tests.mk_state 3 7 1000 [] [])
    = timerfd_tests.ok (timerfd_tests.mk_state 0 7 2490 [480; 510; 500] [2; 1; 1]) /\
  timerfd_tests.SpanFold [480; 510; 500] = (3, 2490 - 1000).
Proof.
  assert (0 <= 3) as H by lia.
  split; [exact H |]. split; [reflexivity |].
  exact (perf_average_is_elapsed_over_count perf_mailbox 7 1000 3
           (timerfd_tests.mk_state 0 7 2490 [480; 510; 500] [2; 1; 1]) H eq_refl).
Defined.

(** X18. When fewer ready messages arrive than [count] asks for, [perf_loop]
    throws ["timeout waiting for message"]. *)
Theorem perf_loop_times_out (mailbox : list timerfd_tests.message) :
  forall s : timerfd_tests.state,
    timerfd_tests.all_ready mailbox ->
    Z.of_nat (length mailbox) < timerfd_tests.count s ->
    timerfd_tests.perf_loop mailbox s = timerfd_tests.throw "timeout waiting for message".
Proof.
  induction mailbox as [| m mailbox IH]; intros s Hall Hlen;
    cbn [timerfd_tests.perf_loop length] in *.
  - destruct (Z.ltb_spec 0 (timerfd_tests.count s)); [reflexivity | lia].
  - destruct (Z.ltb_spec 0 (timerfd_tests.count s)); [| lia].
    apply Forall_cons in Hall as [(now & expiration & ->) Hall].
    apply IH; [exact Hall |]. cbn [timerfd_tests.count]. lia.
Qed.

Lemma perf_loop_times_out_witness :
  timerfd_tests.all_ready perf_mailbox /\
  Z.of_nat (length perf_mailbox) < 2000 /\
  timerfd_tests.perf_loop perf_mailbox (timerfd_tests.mk_state 2000 7 1000 [] [])
    = timerfd_tests.throw "timeout waiting for message".
Proof.
  assert (timerfd_tests.all_ready perf_mailbox) as Ha
    by (repeat constructor; eexists; eexists; reflexivity).
  assert (Z.of_nat (length perf_mailbox) < 2000) as Hl by (simpl; lia).
  split; [exact Ha |]. split; [exact Hl |].
  exact (perf_loop_times_out perf_mailbox (timerfd_tests.mk_state 2000 7 1000 [] [])
           Ha Hl).
Defined.
